(** * Capability registry and bounded agent loop of AI-Essentials

    A shallow embedding of the two examples that carry the repository's logic:
    - [04_MCP/mcp_server_example.py]: [SimpleMCPServer] (resource and tool
      registries kept as Python lists, first-match lookup, dispatch with the
      handler's exceptions turned into an error response) and its three tools;
    - [05_Agents/openai_agent.py]: [execute_tool_call] and the [run_agent] loop.

    Python objects are modelled by the type [value]; floats are IEEE 754
    binary64 numbers computed with the Standard Library's [SpecFloat]; raising
    is an explicit [result]; [print] is a log of events.  Interpreter texts
    (exception messages, [repr]) follow CPython 3.11.  Characters are the bytes
    of a Rocq [string]: the digit and space classes of [float()], the
    escapes of [repr] and the letters [lower()] changes are those of the
    characters below 128. *)

From Stdlib Require Import ZArith List String Ascii Bool Lia.
From Stdlib Require Import SpecFloat DecimalString.
Import ListNotations.
Open Scope string_scope.
Open Scope Z_scope.

(** * Python text of integers *)

Definition str_of_Z (z : Z) : string := NilZero.string_of_int (Z.to_int z).

Definition ndigits (z : Z) : Z := Z.of_nat (String.length (str_of_Z (Z.abs z))).

Fixpoint zeros (n : nat) : string :=
  match n with O => EmptyString | S n' => String "0" (zeros n') end.

Fixpoint strip_trailing_zeros_rev (l : list ascii) : list ascii :=
  match l with
  | "0"%char :: l' => strip_trailing_zeros_rev l'
  | _ => l
  end.

(** * Python floats: IEEE 754 binary64, by the Standard Library's executable specification *)

Module PyFloat.

Definition prec : Z := 53.
Definition emax : Z := 1024.

Definition add := SFadd prec emax.
Definition sub := SFsub prec emax.
Definition mul := SFmul prec emax.
Definition div := SFdiv prec emax.

(* the correctly rounded quotient n/d of two positive integers *)
Definition of_ratio (neg : bool) (n d : positive) : spec_float :=
  let '(q, e, l) := SFdiv_core_binary prec emax (Zpos n) 0 (Zpos d) 0 in
  binary_round_aux prec emax neg q e l.

Definition of_Z (z : Z) : spec_float := binary_normalize prec emax z 0 false.

(* the correctly rounded value of D * 10^k, D >= 0; exponents far outside the
   binary64 range are settled without building the power of ten *)
Definition of_decimal (neg : bool) (D k : Z) : spec_float :=
  match D with
  | Zpos p =>
      if 400 <? ndigits D + k then S754_infinity neg
      else if ndigits D + k <? -400 then S754_zero neg
      else if 0 <=? k then binary_normalize prec emax ((if neg then - D else D) * 10 ^ k) 0 neg
      else of_ratio neg p (Z.to_pos (10 ^ (- k)))
  | _ => S754_zero neg
  end.

Definition is_zero (x : spec_float) : bool :=
  match x with S754_zero _ => true | _ => false end.

(* same float, the sign of zero included (what a decimal text must read back as) *)
Definition same (x y : spec_float) : bool :=
  match x, y with
  | S754_zero a, S754_zero b => Bool.eqb a b
  | S754_infinity a, S754_infinity b => Bool.eqb a b
  | S754_nan, S754_nan => true
  | S754_finite a m e, S754_finite b m' e' => Bool.eqb a b && Pos.eqb m m' && Z.eqb e e'
  | _, _ => false
  end.

(** ** repr(float): the shortest decimal text that reads back as the same float *)

(* m * 2^e as a fraction of positive integers *)
Definition fraction (m : positive) (e : Z) : Z * Z :=
  if 0 <=? e then (Zpos m * 2 ^ e, 1) else (Zpos m, 2 ^ (- e)).

(* the d with 10^d <= n/den < 10^(d+1) *)
Definition dec_exponent (n den : Z) : Z :=
  let c := ndigits n - ndigits den in
  let holds := if 0 <=? c then den * 10 ^ c <=? n else den <=? n * 10 ^ (- c) in
  if holds then c else c - 1.

(* the p-digit decimals next to n/den: (D, k, closer) with
   D * 10^k <= n/den < (D+1) * 10^k; closer says which of the two is nearer
   (Lt: the lower one, Gt: the upper one, Eq: a tie) *)
Definition neighbours (n den p : Z) : Z * Z * comparison :=
  let k := dec_exponent n den - (p - 1) in
  let N := if 0 <=? k then n else n * 10 ^ (- k) in
  let M := if 0 <=? k then den * 10 ^ k else den in
  (N / M, k, (2 * (N mod M) ?= M)).

Definition shortest_at (x : spec_float) (n den p : Z) : option (Z * Z) :=
  let '(D, k, closer) := neighbours n den p in
  let lo_ok := same (of_decimal false D k) x in
  let hi_ok := same (of_decimal false (D + 1) k) x in
  match lo_ok, hi_ok with
  | true, true =>
      match closer with
      | Lt => Some (D, k)
      | Gt => Some (D + 1, k)
      | Eq => Some (if Z.even D then D else D + 1, k)
      end
  | true, false => Some (D, k)
  | false, true => Some (D + 1, k)
  | false, false => None
  end.

Fixpoint shortest_from (fuel : nat) (x : spec_float) (n den p : Z) : Z * Z :=
  match fuel with
  | O => let '(D, k, _) := neighbours n den p in (D, k)
  | S fuel' =>
      match shortest_at x n den p with
      | Some r => r
      | None => shortest_from fuel' x n den (p + 1)
      end
  end.

(* digits without trailing zeros, and the position of the decimal point:
   the value is 0.digits * 10^decpt *)
Definition shortest_digits (m : positive) (e : Z) : string * Z :=
  let '(n, den) := fraction m e in
  let '(D, k) := shortest_from 17 (S754_finite false m e) n den 1 in
  let all := str_of_Z D in
  let ds := string_of_list_ascii (rev (strip_trailing_zeros_rev (rev (list_ascii_of_string all)))) in
  (ds, Z.of_nat (String.length all) + k).

Definition exponent_text (x : Z) : string :=
  let a := str_of_Z (Z.abs x) in
  (if x <? 0 then "-" else "+") ++ (if Z.abs x <? 10 then "0" else EmptyString) ++ a.

Definition layout (ds : string) (decpt : Z) : string :=
  let len := Z.of_nat (String.length ds) in
  if (decpt <=? -4) || (16 <? decpt) then
    String.substring 0 1 ds
      ++ (if 1 <? len then "." ++ String.substring 1 (String.length ds - 1) ds else EmptyString)
      ++ "e" ++ exponent_text (decpt - 1)
  else if decpt <=? 0 then
    "0." ++ zeros (Z.to_nat (- decpt)) ++ ds
  else if decpt <? len then
    String.substring 0 (Z.to_nat decpt) ds ++ "."
      ++ String.substring (Z.to_nat decpt) (String.length ds - Z.to_nat decpt) ds
  else ds ++ zeros (Z.to_nat (decpt - len)) ++ ".0".

Definition repr (x : spec_float) : string :=
  match x with
  | S754_nan => "nan"
  | S754_infinity s => if s then "-inf" else "inf"
  | S754_zero s => if s then "-0.0" else "0.0"
  | S754_finite s m e =>
      let '(ds, decpt) := shortest_digits m e in
      (if s then "-" else EmptyString) ++ layout ds decpt
  end.

(** ** float(text) *)

Definition is_digit (c : ascii) : bool :=
  let n := N_of_ascii c in ((48 <=? n) && (n <=? 57))%N.

Definition digit_value (c : ascii) : Z := Z.of_N (N_of_ascii c) - 48.

(* the blanks float() strips: space, \t, \n, \v, \f, \r *)
Definition is_space (c : ascii) : bool :=
  let n := N_of_ascii c in
  ((n =? 32) || ((9 <=? n) && (n <=? 13)))%N.

Definition lower (c : ascii) : ascii :=
  let n := N_of_ascii c in
  if ((65 <=? n) && (n <=? 90))%N then ascii_of_N (n + 32) else c.

Fixpoint drop_spaces (l : list ascii) : list ascii :=
  match l with
  | c :: l' => if is_space c then drop_spaces l' else l
  | [] => []
  end.

Definition strip (l : list ascii) : list ascii :=
  rev (drop_spaces (rev (drop_spaces l))).

(* an underscore is accepted between two digits only, and is then dropped *)
Fixpoint drop_underscores (prev_digit : bool) (l : list ascii) : option (list ascii) :=
  match l with
  | [] => Some []
  | c :: l' =>
      if Ascii.eqb c "_" then
        match l' with
        | d :: _ => if prev_digit && is_digit d then drop_underscores false l' else None
        | [] => None
        end
      else option_map (cons c) (drop_underscores (is_digit c) l')
  end.

(* leading digits: their value, how many, and what follows *)
Fixpoint take_digits (acc : Z) (count : Z) (l : list ascii) : Z * Z * list ascii :=
  match l with
  | c :: l' => if is_digit c then take_digits (10 * acc + digit_value c) (count + 1) l'
               else (acc, count, l)
  | [] => (acc, count, [])
  end.

Definition take_sign (l : list ascii) : bool * list ascii :=
  match l with
  | "-"%char :: l' => (true, l')
  | "+"%char :: l' => (false, l')
  | _ => (false, l)
  end.

Definition parse_exponent (l : list ascii) : option Z :=
  match l with
  | [] => Some 0
  | c :: l' =>
      if Ascii.eqb (lower c) "e" then
        let '(neg, l'') := take_sign l' in
        match take_digits 0 0 l'' with
        | (v, count, []) => if 0 <? count then Some (if neg then - v else v) else None
        | _ => None
        end
      else None
  end.

Definition parse_number (neg : bool) (l : list ascii) : option spec_float :=
  let '(ip, icount, rest) := take_digits 0 0 l in
  let '(mant, fcount, rest') :=
    match rest with
    | "."%char :: r => let '(v, c, r') := take_digits ip 0 r in (v, c, r')
    | _ => (ip, 0, rest)
    end in
  if 0 <? icount + fcount then
    match parse_exponent rest' with
    | Some x => Some (of_decimal neg mant (x - fcount))
    | None => None
    end
  else None.

Definition parse (s : string) : option spec_float :=
  match drop_underscores false (strip (list_ascii_of_string s)) with
  | None => None
  | Some l =>
      let '(neg, body) := take_sign l in
      let word := string_of_list_ascii (map lower body) in
      if String.eqb word "inf" || String.eqb word "infinity" then Some (S754_infinity neg)
      else if String.eqb word "nan" then Some S754_nan
      else parse_number neg body
  end.

End PyFloat.

(** * Python objects, exceptions and calls *)

#[local] Unset Elimination Schemes.
Inductive value : Type :=
| VNone
| VBool (b : bool)
| VInt (z : Z)
| VFloat (x : spec_float)
| VStr (s : string)
| VList (l : list value)
| VDict (d : list (string * value))
| VOpaque (class_name text : string).
(* [VOpaque]: an object of another class, given by the class's name and the
   object's str; float() does not accept it and json cannot encode it (a
   complex number, for one) *)

#[local] Set Elimination Schemes.

(* a dict literal keeps insertion order; keys are looked up from the front *)
Definition kwargs : Type := list (string * value).

Fixpoint dict_get (d : kwargs) (key : string) : option value :=
  match d with
  | [] => None
  | (k, v) :: d' => if String.eqb k key then Some v else dict_get d' key
  end.

Definition dict_has (d : kwargs) (key : string) : bool :=
  match dict_get d key with Some _ => true | None => false end.

(* a dict with str keys and entries of any one type *)
Fixpoint assoc {A : Type} (key : string) (l : list (string * A)) : option A :=
  match l with
  | [] => None
  | (k, a) :: l' => if String.eqb k key then Some a else assoc key l'
  end.

Inductive exn_class : Type :=
| TypeError
| ValueError
| OverflowError
| ZeroDivisionError
| AttributeError
| JSONDecodeError
| OtherException (class_name : string)   (* any other subclass of Exception *)
| NotException (class_name : string).     (* KeyboardInterrupt, SystemExit, CancelledError *)

(* an exception object: its class and what str(e) gives *)
Record pyexn : Type := { exn_type : exn_class; exn_str : string }.

(* isinstance(e, Exception): what [except Exception] catches *)
Definition is_Exception (e : pyexn) : bool :=
  match exn_type e with NotException _ => false | _ => true end.

Inductive result (A : Type) : Type :=
| Return (a : A)
| Raise (e : pyexn).
Arguments Return {A} a.
Arguments Raise {A} e.

Definition bind {A B : Type} (c : result A) (k : A -> result B) : result B :=
  match c with
  | Return a => k a
  | Raise e => Raise e
  end.

Notation "x <- c ;; k" := (bind c (fun x => k))
  (at level 61, c at next level, right associativity).

Definition raise {A : Type} (c : exn_class) (msg : string) : result A :=
  Raise {| exn_type := c; exn_str := msg |}.

(** ** repr and str *)

Definition dquote : ascii := ascii_of_nat 34.
Definition squote : ascii := "'"%char.

Definition quoted (s : string) : string := "'" ++ s ++ "'".

Definition hex_digit (n : N) : ascii :=
  if (n <? 10)%N then ascii_of_N (48 + n) else ascii_of_N (87 + n).

Definition repr_char (quote c : ascii) : string :=
  let n := N_of_ascii c in
  if Ascii.eqb c "\" then "\\"
  else if Ascii.eqb c quote then String "\" (String c EmptyString)
  else if (n =? 9)%N then "\t"
  else if (n =? 10)%N then "\n"
  else if (n =? 13)%N then "\r"
  else if ((n <? 32) || (n =? 127))%N then
    "\x" ++ String (hex_digit (n / 16)) (String (hex_digit (n mod 16)) EmptyString)
  else String c EmptyString.

Definition repr_str (s : string) : string :=
  let l := list_ascii_of_string s in
  let quote :=
    if existsb (Ascii.eqb squote) l && negb (existsb (Ascii.eqb dquote) l)
    then dquote else squote in
  String quote (String.concat EmptyString (map (repr_char quote) l))
    ++ String quote EmptyString.

Fixpoint py_repr (v : value) : string :=
  match v with
  | VNone => "None"
  | VBool b => if b then "True" else "False"
  | VInt z => str_of_Z z
  | VFloat x => PyFloat.repr x
  | VStr s => repr_str s
  | VList l => "[" ++ String.concat ", " (map py_repr l) ++ "]"
  | VDict d =>
      "{" ++ String.concat ", "
               (map (fun kv => match kv with
                               | (k, x) => repr_str k ++ ": " ++ py_repr x
                               end) d) ++ "}"
  | VOpaque _ text => text
  end.

(* str(v), which is also what an f-string field {v} shows *)
Definition py_str (v : value) : string :=
  match v with
  | VStr s => s
  | _ => py_repr v
  end.

Definition type_name (v : value) : string :=
  match v with
  | VNone => "NoneType"
  | VBool _ => "bool"
  | VInt _ => "int"
  | VFloat _ => "float"
  | VStr _ => "str"
  | VList _ => "list"
  | VDict _ => "dict"
  | VOpaque class_name _ => class_name
  end.

(** ** float(v) *)

Definition float_of_int (z : Z) : result spec_float :=
  match PyFloat.of_Z z with
  | S754_infinity _ => raise OverflowError "int too large to convert to float"
  | x => Return x
  end.

Definition py_float (v : value) : result spec_float :=
  match v with
  | VFloat x => Return x
  | VInt z => float_of_int z
  | VBool b => float_of_int (if b then 1 else 0)
  | VStr s =>
      match PyFloat.parse s with
      | Some x => Return x
      | None => raise ValueError ("could not convert string to float: " ++ repr_str s)
      end
  | _ =>
      raise TypeError
        ("float() argument must be a string or a real number, not '" ++ type_name v ++ "'")
  end.

(** ** Arithmetic, as the operators dispatch on the operands' types *)

Inductive number : Type :=
| NInt (z : Z)
| NFloat (x : spec_float).

(* bool is a subclass of int *)
Definition as_number (v : value) : option number :=
  match v with
  | VInt z => Some (NInt z)
  | VBool b => Some (NInt (if b then 1 else 0))
  | VFloat x => Some (NFloat x)
  | _ => None
  end.

Definition to_float (n : number) : result spec_float :=
  match n with
  | NInt z => float_of_int z
  | NFloat x => Return x
  end.

Definition unsupported {A : Type} (op : string) (a b : value) : result A :=
  raise TypeError ("unsupported operand type(s) for " ++ op ++ ": "
                     ++ quoted (type_name a) ++ " and " ++ quoted (type_name b)).

Definition float_op (f : spec_float -> spec_float -> spec_float) (x y : number)
  : result value :=
  fx <- to_float x ;;
  fy <- to_float y ;;
  Return (VFloat (f fx fy)).

Definition cannot_concatenate {A : Type} (seq : string) (b : value) : result A :=
  raise TypeError ("can only concatenate " ++ seq ++ " (not "
                     ++ String dquote (type_name b) ++ String dquote ") to " ++ seq).

(* a + b *)
Definition py_add (a b : value) : result value :=
  match as_number a, as_number b with
  | Some (NInt x), Some (NInt y) => Return (VInt (x + y))
  | Some x, Some y => float_op PyFloat.add x y
  | _, _ =>
      match a, b with
      | VStr s, VStr t => Return (VStr (s ++ t))
      | VList l, VList l' => Return (VList (l ++ l'))
      | VStr _, _ => cannot_concatenate "str" b
      | VList _, _ => cannot_concatenate "list" b
      | _, _ => unsupported "+" a b
      end
  end.

(* a - b *)
Definition py_sub (a b : value) : result value :=
  match as_number a, as_number b with
  | Some (NInt x), Some (NInt y) => Return (VInt (x - y))
  | Some x, Some y => float_op PyFloat.sub x y
  | _, _ => unsupported "-" a b
  end.

Fixpoint repeat_string (n : nat) (s : string) : string :=
  match n with O => EmptyString | S n' => s ++ repeat_string n' s end.

Definition repeat_sequence (v : value) (count : Z) : value :=
  match v with
  | VStr s => VStr (repeat_string (Z.to_nat count) s)
  | VList l => VList (List.concat (List.repeat l (Z.to_nat count)))
  | _ => v
  end.

Definition is_sequence (v : value) : bool :=
  match v with VStr _ | VList _ => true | _ => false end.

(* a * b; a str or list times an int repeats it *)
Definition py_mul (a b : value) : result value :=
  match as_number a, as_number b with
  | Some (NInt x), Some (NInt y) => Return (VInt (x * y))
  | Some x, Some y => float_op PyFloat.mul x y
  | None, Some (NInt n) =>
      if is_sequence a then Return (repeat_sequence a n) else unsupported "*" a b
  | Some (NInt n), None =>
      if is_sequence b then Return (repeat_sequence b n) else unsupported "*" a b
  | _, _ =>
      if is_sequence a then
        raise TypeError ("can't multiply sequence by non-int of type " ++ quoted (type_name b))
      else if is_sequence b then
        raise TypeError ("can't multiply sequence by non-int of type " ++ quoted (type_name a))
      else unsupported "*" a b
  end.

(* a / b: the quotient of two ints is rounded once, from the exact ratio *)
Definition py_truediv (a b : value) : result value :=
  match as_number a, as_number b with
  | Some (NInt x), Some (NInt y) =>
      if y =? 0 then raise ZeroDivisionError "division by zero"
      else
        let neg := xorb (x <? 0) (y <? 0) in
        match x with
        | 0 => Return (VFloat (S754_zero neg))
        | _ =>
            match PyFloat.of_ratio neg (Z.to_pos (Z.abs x)) (Z.to_pos (Z.abs y)) with
            | S754_infinity _ =>
                raise OverflowError "integer division result too large for a float"
            | q => Return (VFloat q)
            end
        end
  | Some x, Some y =>
      fx <- to_float x ;;
      fy <- to_float y ;;
      if PyFloat.is_zero fy then raise ZeroDivisionError "float division by zero"
      else Return (VFloat (PyFloat.div fx fy))
  | _, _ => unsupported "/" a b
  end.

(* a ** b: exact for an int to a non-negative int power; every other power of
   numbers is float.__pow__, which rests on the platform's pow and is
   therefore supplied by the caller as [float_pow] *)
Definition py_pow (float_pow : spec_float -> spec_float -> result value) (a b : value)
  : result value :=
  match as_number a, as_number b with
  | Some (NInt x), Some (NInt y) =>
      if 0 <=? y then Return (VInt (x ^ y))
      else fx <- float_of_int x ;; fy <- float_of_int y ;; float_pow fx fy
  | Some x, Some y =>
      fx <- to_float x ;;
      fy <- to_float y ;;
      float_pow fx fy
  | _, _ => unsupported "** or pow()" a b
  end.

(* b != 0 *)
Definition py_ne_zero (b : value) : bool :=
  match as_number b with
  | Some (NInt y) => negb (y =? 0)
  | Some (NFloat y) => negb (PyFloat.is_zero y)
  | None => true
  end.

(* math.sqrt(a) *)
Definition math_sqrt (a : value) : result value :=
  match as_number a with
  | Some n =>
      x <- to_float n ;;
      match x with
      | S754_finite true _ _ | S754_infinity true => raise ValueError "math domain error"
      | _ => Return (VFloat (SFsqrt PyFloat.prec PyFloat.emax x))
      end
  | None => raise TypeError ("must be real number, not " ++ type_name a)
  end.

(* v.lower(): only a str has the method *)
Definition py_lower (v : value) : result string :=
  match v with
  | VStr s => Return (string_of_list_ascii (map PyFloat.lower (list_ascii_of_string s)))
  | _ =>
      raise AttributeError (quoted (type_name v) ++ " object has no attribute 'lower'")
  end.

(* key in text, for two strs *)
Definition contains (key text : string) : bool :=
  match String.index 0 key text with
  | Some _ => true
  | None => false
  end.

(** ** Calling a function with a dict unpacked into keyword arguments *)

(* a Python function: its name, its parameters (each with its default, if
   any) and its body over the bound parameters *)
Record pyfun : Type := {
  fun_name : string;
  fun_params : list (string * option value);
  fun_body : (string -> value) -> result value
}.

Fixpoint name_list (l : list string) : string :=
  match l with
  | [] => EmptyString
  | [a] => quoted a
  | [a; b] => quoted a ++ " and " ++ quoted b
  | a :: rest =>
      quoted a ++ ", " ++
      (match rest with
       | [b; c] => quoted b ++ ", and " ++ quoted c
       | _ => name_list rest
       end)
  end.

Definition missing_message (f : string) (missing : list string) : string :=
  let n := Z.of_nat (List.length missing) in
  f ++ "() missing " ++ str_of_Z n ++ " required positional argument"
    ++ (if n =? 1 then EmptyString else "s") ++ ": " ++ name_list missing.

Definition is_param (params : list (string * option value)) (k : string) : bool :=
  existsb (fun p => String.eqb (fst p) k) params.

(* the parameters left without a value: not passed and without a default *)
Definition missing_params (params : list (string * option value)) (kw : kwargs)
  : list string :=
  map fst (filter (fun p => negb (dict_has kw (fst p)) &&
                            match snd p with None => true | Some _ => false end) params).

(* the value a bound parameter has in the body *)
Definition bound_value (params : list (string * option value)) (kw : kwargs)
  (x : string) : value :=
  match dict_get kw x with
  | Some v => v
  | None =>
      match find (fun p => String.eqb (fst p) x) params with
      | Some (_, Some dflt) => dflt
      | _ => VNone
      end
  end.

Definition call_kw (f : pyfun) (kw : kwargs) : result value :=
  match find (fun kv => negb (is_param (fun_params f) (fst kv))) kw with
  | Some (k, _) =>
      raise TypeError (fun_name f ++ "() got an unexpected keyword argument " ++ quoted k)
  | None =>
      match missing_params (fun_params f) kw with
      | [] => fun_body f (bound_value (fun_params f) kw)
      | missing => raise TypeError (missing_message (fun_name f) missing)
      end
  end.

(** * 04_MCP/mcp_server_example.py *)

Module MCP.

(* a registered resource: the dict built by [register_resource] *)
Record resource : Type := {
  res_uri : string;
  res_name : string;
  res_mimeType : string;
  res_description : string;
  res_content : string
}.

(* a tool handler as [call_tool] uses it: applied to the unpacked arguments *)
Definition handler : Type := kwargs -> result value.

(* a registered tool: the dict built by [register_tool] *)
Record tool : Type := {
  tool_name : string;
  tool_description : string;
  tool_handler : handler;
  tool_inputSchema : value
}.

Record SimpleMCPServer : Type := {
  name : string;
  version : string;
  resources : list resource;
  tools : list tool
}.

(* __init__ *)
Definition init (name : string) : SimpleMCPServer :=
  {| name := name; version := "1.0.0"; resources := []; tools := [] |}.

Definition register_resource (self : SimpleMCPServer)
  (uri name mime_type content : string) : SimpleMCPServer :=
  let resource :=
    {| res_uri := uri;
       res_name := name;
       res_mimeType := mime_type;
       res_description := "Resource: " ++ name;
       res_content := content |} in
  {| name := self.(MCP.name); version := self.(version);
     resources := self.(resources) ++ [resource];
     tools := self.(tools) |}.

(* the inputSchema every tool gets: an object with no declared property *)
Definition empty_schema : value :=
  VDict [("type", VStr "object"); ("properties", VDict [])].

Definition register_tool (self : SimpleMCPServer)
  (name description : string) (handler : handler) : SimpleMCPServer :=
  let tool :=
    {| tool_name := name;
       tool_description := description;
       tool_handler := handler;
       tool_inputSchema := empty_schema |} in
  {| name := self.(MCP.name); version := self.(version);
     resources := self.(resources);
     tools := self.(tools) ++ [tool] |}.

Definition list_resources (self : SimpleMCPServer) : value :=
  VDict [("resources",
          VList (map (fun r => VDict [("uri", VStr r.(res_uri));
                                       ("name", VStr r.(res_name));
                                       ("mimeType", VStr r.(res_mimeType));
                                       ("description", VStr r.(res_description))])
                     self.(resources)))].

Definition error_response (msg : string) : value := VDict [("error", VStr msg)].

Definition contents_response (r : resource) : value :=
  VDict [("contents",
          VList [VDict [("uri", VStr r.(res_uri));
                        ("mimeType", VStr r.(res_mimeType));
                        ("text", VStr r.(res_content))]])].

(* the for loop of [read_resource] over self.resources *)
Fixpoint read_resource_from (rs : list resource) (uri : string) : value :=
  match rs with
  | [] => error_response "Resource not found"
  | resource :: rest =>
      if String.eqb resource.(res_uri) uri then contents_response resource
      else read_resource_from rest uri
  end.

Definition read_resource (self : SimpleMCPServer) (uri : string) : value :=
  read_resource_from self.(resources) uri.

Definition list_tools (self : SimpleMCPServer) : value :=
  VDict [("tools",
          VList (map (fun t => VDict [("name", VStr t.(tool_name));
                                       ("description", VStr t.(tool_description));
                                       ("inputSchema", t.(tool_inputSchema))])
                     self.(tools)))].

Definition content_response (text : string) : value :=
  VDict [("content", VList [VDict [("type", VStr "text"); ("text", VStr text)]])].

(* the try block of [call_tool]: await the handler on the unpacked arguments;
   [except Exception] turns what it catches into an error response, anything
   else keeps propagating *)
Definition invoke (tool : tool) (arguments : kwargs) : result value :=
  match tool.(tool_handler) arguments with
  | Return result => Return (content_response (py_str result))
  | Raise e => if is_Exception e then Return (error_response e.(exn_str)) else Raise e
  end.

(* the for loop of [call_tool] over self.tools *)
Fixpoint call_tool_from (ts : list tool) (tool_name : string) (arguments : kwargs)
  : result value :=
  match ts with
  | [] => Return (error_response "Tool not found")
  | tool :: rest =>
      if String.eqb tool.(MCP.tool_name) tool_name then invoke tool arguments
      else call_tool_from rest tool_name arguments
  end.

Definition call_tool (self : SimpleMCPServer) (tool_name : string) (arguments : kwargs)
  : result value :=
  call_tool_from self.(tools) tool_name arguments.

(** ** Tool implementations *)

Definition operations : list (string * (spec_float -> spec_float -> value)) :=
  [ ("add", fun x y => VFloat (PyFloat.add x y));
    ("subtract", fun x y => VFloat (PyFloat.sub x y));
    ("multiply", fun x y => VFloat (PyFloat.mul x y));
    ("divide", fun x y => if negb (PyFloat.is_zero y) then VFloat (PyFloat.div x y)
                          else VStr "Error: Division by zero") ].

(* [operation in operations] and [operations[operation]]: only a str can be
   one of the keys; a list or a dict cannot be hashed *)
Definition find_operation (operation : value)
  : result (option (spec_float -> spec_float -> value)) :=
  match operation with
  | VStr s => Return (assoc s operations)
  | VList _ | VDict _ =>
      raise TypeError ("unhashable type: " ++ quoted (type_name operation))
  | _ => Return None
  end.

Definition calculator_tool : pyfun :=
  {| fun_name := "calculator_tool";
     fun_params := [("operation", None); ("a", None); ("b", None)];
     fun_body := fun arg =>
       let operation := arg "operation" in
       let a := arg "a" in
       let b := arg "b" in
       found <- find_operation operation ;;
       match found with
       | Some f =>
           x <- py_float a ;;
           y <- py_float b ;;
           let result := f x y in
           Return (VStr (py_str operation ++ "(" ++ py_str a ++ ", " ++ py_str b
                           ++ ") = " ++ py_str result))
       | None => Return (VStr ("Unknown operation: " ++ py_str operation))
       end |}.

(* [clock] is the text datetime.now().strftime('%Y-%m-%d %H:%M:%S') gives *)
Definition get_time_tool (clock : string) : pyfun :=
  {| fun_name := "get_time_tool";
     fun_params := [];
     fun_body := fun _ => Return (VStr ("Current time: " ++ clock)) |}.

Definition echo_tool : pyfun :=
  {| fun_name := "echo_tool";
     fun_params := [("message", None)];
     fun_body := fun arg => Return (VStr ("Echo: " ++ py_str (arg "message"))) |}.

(* the server [main] sets up *)
Definition main_server (clock : string) : SimpleMCPServer :=
  let server := init "demo-mcp-server" in
  let server := register_resource server "resource://documentation" "API Documentation"
                  "text/markdown"
                  ("# API Documentation" ++ String (ascii_of_nat 10) (String (ascii_of_nat 10)
                     "This is sample documentation.")) in
  let server := register_resource server "resource://config" "Configuration"
                  "application/json"
                  ("{" ++ String dquote "env" ++ String dquote ": "
                     ++ String dquote "production" ++ String dquote ", "
                     ++ String dquote "debug" ++ String dquote ": false}") in
  let server := register_tool server "calculator" "Perform basic arithmetic operations"
                  (call_kw calculator_tool) in
  let server := register_tool server "get_time" "Get the current time"
                  (call_kw (get_time_tool clock)) in
  let server := register_tool server "echo" "Echo back a message" (call_kw echo_tool) in
  server.

End MCP.

(** * 05_Agents/openai_agent.py *)

Module Agent.

(** ** JSON text

    A JSON text is represented by what [json.loads] makes of it: the decoded
    object, or the decoder's complaint when the text is not JSON. *)

Inductive json_text : Type :=
| JsonOf (v : value)
| NotJson (decoder_message : string).

Definition json_loads (t : json_text) : result value :=
  match t with
  | JsonOf v => Return v
  | NotJson msg => raise JSONDecodeError msg
  end.

(* the first object json.dumps cannot encode, if any *)
Fixpoint first_opaque (v : value) : option string :=
  match v with
  | VOpaque class_name _ => Some class_name
  | VList l =>
      (fix scan (l : list value) : option string :=
         match l with
         | [] => None
         | x :: l' => match first_opaque x with Some c => Some c | None => scan l' end
         end) l
  | VDict d =>
      (fix scan (d : list (string * value)) : option string :=
         match d with
         | [] => None
         | (_, x) :: d' => match first_opaque x with Some c => Some c | None => scan d' end
         end) d
  | _ => None
  end.

Definition json_dumps (v : value) : result json_text :=
  match first_opaque v with
  | Some class_name =>
      raise TypeError ("Object of type " ++ class_name ++ " is not JSON serializable")
  | None => Return (JsonOf v)
  end.

(** ** The objects of the chat API that the loop reads *)

Record function_call : Type := {
  fn_name : string;          (* tool_call.function.name *)
  fn_arguments : json_text   (* tool_call.function.arguments *)
}.

Record tool_call : Type := {
  id : string;
  function : function_call
}.

(* response.choices[0].message; [tool_calls] is empty when the API gives None *)
Record chat_message : Type := {
  content : option string;
  tool_calls : list tool_call
}.

(* an entry of the [messages] list *)
Inductive message : Type :=
| role_message (role content : string)
| response_message (m : chat_message)
| tool_message (tool_call_id name : string) (content : json_text).

(* what the run does to the outside: calls of the model API, and prints *)
Inductive event : Type :=
| CallModel (sent : list message)
| PrintWarningNoKey
| PrintTask (user_query : string)
| PrintSkipping
| PrintIteration (iteration : Z)
| PrintThought
| PrintCalling (function_name : string) (function_args : value)
| PrintResult (result : value)
| PrintFinalAnswer (content : option string)
| PrintError (e : pyexn)
| PrintReachedMaximum (max_iterations : Z).

(* what the program takes from its environment *)
Record host : Type := {
  OPENAI_API_KEY : option string;
  (* client.chat.completions.create(...).choices[0].message for these messages *)
  chat_completions_create : list message -> result chat_message;
  (* float.__pow__ *)
  float_pow : spec_float -> spec_float -> result value;
  (* datetime.now().isoformat() *)
  now_isoformat : string
}.

Definition check_api_key (h : host) : list event * bool :=
  match h.(OPENAI_API_KEY) with
  | None => ([PrintWarningNoKey], false)
  | Some api_key =>
      if String.eqb api_key EmptyString || String.eqb api_key "your_openai_api_key_here"
      then ([PrintWarningNoKey], false)
      else ([], true)
  end.

(** ** Tool implementations *)

Definition is_str (v : value) (s : string) : bool :=
  match v with VStr t => String.eqb t s | _ => false end.

(* d.get(key, default) for a dict with str keys *)
Definition get_default (d : kwargs) (key default : value) : result value :=
  match key with
  | VStr s => Return (match dict_get d s with Some v => v | None => default end)
  | VList _ | VDict _ => raise TypeError ("unhashable type: " ++ quoted (type_name key))
  | _ => Return default
  end.

(* the dict literal computes every entry before the lookup *)
Definition calculator (h : host) : pyfun :=
  {| fun_name := "calculator";
     fun_params := [("operation", None); ("a", None); ("b", None)];
     fun_body := fun arg =>
       let operation := arg "operation" in
       let a := arg "a" in
       let b := arg "b" in
       add <- py_add a b ;;
       subtract <- py_sub a b ;;
       multiply <- py_mul a b ;;
       divide <- (if py_ne_zero b then py_truediv a b
                  else Return (VStr "Error: Division by zero")) ;;
       power <- py_pow h.(float_pow) a b ;;
       sqrt <- (if is_str operation "sqrt" then math_sqrt a else Return VNone) ;;
       let operations :=
         [("add", add); ("subtract", subtract); ("multiply", multiply);
          ("divide", divide); ("power", power); ("sqrt", sqrt)] in
       result <- get_default operations operation (VStr "Unknown operation") ;;
       Return (VDict [("operation", operation);
                      ("result", result);
                      ("calculation",
                       VStr (py_str operation ++ "(" ++ py_str a ++ ", " ++ py_str b
                               ++ ") = " ++ py_str result))]) |}.

Definition weather_data : list (string * kwargs) :=
  [ ("new york", [("temp", VInt 22); ("condition", VStr "Sunny"); ("humidity", VInt 65)]);
    ("london", [("temp", VInt 15); ("condition", VStr "Cloudy"); ("humidity", VInt 80)]);
    ("tokyo", [("temp", VInt 25); ("condition", VStr "Clear"); ("humidity", VInt 70)]);
    ("paris", [("temp", VInt 18); ("condition", VStr "Rainy"); ("humidity", VInt 85)]) ].

(* d[key] = v: in place when the key is there, at the end otherwise *)
Fixpoint dict_set (d : kwargs) (key : string) (v : value) : kwargs :=
  match d with
  | [] => [(key, v)]
  | (k, x) :: d' => if String.eqb k key then (k, v) :: d' else (k, x) :: dict_set d' key v
  end.

Definition degree : string := String (ascii_of_nat 194) (String (ascii_of_nat 176) EmptyString).

Definition get_weather (h : host) : pyfun :=
  {| fun_name := "get_weather";
     fun_params := [("location", None); ("unit", Some (VStr "celsius"))];
     fun_body := fun arg =>
       let location := arg "location" in
       let unit := arg "unit" in
       location_lower <- py_lower location ;;
       let data :=
         match assoc location_lower weather_data with
         | Some d => d
         | None => [("temp", VInt 20); ("condition", VStr "Unknown"); ("humidity", VInt 60)]
         end in
       data <- (if is_str unit "fahrenheit" then
                  let temp := match dict_get data "temp" with Some t => t | None => VNone end in
                  t9 <- py_mul temp (VInt 9) ;;
                  t5 <- py_truediv t9 (VInt 5) ;;
                  t32 <- py_add t5 (VInt 32) ;;
                  Return (dict_set (dict_set data "temp" t32) "unit" (VStr (degree ++ "F")))
                else Return (dict_set data "unit" (VStr (degree ++ "C")))) ;;
       Return (VDict (("location", location) :: data
                        ++ [("timestamp", VStr h.(now_isoformat))])) |}.

Definition knowledge : list (string * string) :=
  [ ("python", "Python is a high-level programming language known for readability and versatility.");
    ("ai", "Artificial Intelligence enables machines to learn and make decisions.");
    ("agent", "AI agents are autonomous systems that can perceive, reason, and act.");
    ("llm", "Large Language Models are neural networks trained on vast text data.") ].

Definition search_knowledge_base : pyfun :=
  {| fun_name := "search_knowledge_base";
     fun_params := [("query", None)];
     fun_body := fun arg =>
       let query := arg "query" in
       query_lower <- py_lower query ;;
       match find (fun kv => contains (fst kv) query_lower) knowledge with
       | Some (_, answer) =>
           Return (VDict [("found", VBool true); ("query", query); ("answer", VStr answer)])
       | None =>
           Return (VDict [("found", VBool false); ("query", query);
                          ("answer", VStr "No information found.")])
       end |}.

(* one entry of the [tools] list advertised to the model *)
Definition function_schema (name description : string) (properties : kwargs)
  (required : list string) : value :=
  VDict [("type", VStr "function");
         ("function",
          VDict [("name", VStr name);
                 ("description", VStr description);
                 ("parameters",
                  VDict [("type", VStr "object");
                         ("properties", VDict properties);
                         ("required", VList (map VStr required))])])].

Definition tools : list value :=
  [ function_schema "calculator"
      "Perform mathematical calculations like add, subtract, multiply, divide, power"
      [("operation",
        VDict [("type", VStr "string");
               ("enum", VList (map VStr ["add"; "subtract"; "multiply"; "divide";
                                         "power"; "sqrt"]));
               ("description", VStr "The mathematical operation to perform")]);
       ("a", VDict [("type", VStr "number"); ("description", VStr "The first number")]);
       ("b", VDict [("type", VStr "number"); ("description", VStr "The second number")])]
      ["operation"; "a"];
    function_schema "get_weather" "Get current weather information for a location"
      [("location", VDict [("type", VStr "string"); ("description", VStr "The city name")]);
       ("unit",
        VDict [("type", VStr "string");
               ("enum", VList (map VStr ["celsius"; "fahrenheit"]));
               ("description", VStr "Temperature unit")])]
      ["location"];
    function_schema "search_knowledge_base" "Search the knowledge base for information"
      [("query", VDict [("type", VStr "string"); ("description", VStr "The search query")])]
      ["query"] ].

Definition TOOL_FUNCTIONS (h : host) : list (string * pyfun) :=
  [ ("calculator", calculator h);
    ("get_weather", get_weather h);
    ("search_knowledge_base", search_knowledge_base) ].

(** ** execute_tool_call *)

(* f applied to function_args unpacked: only a dict can be unpacked *)
Definition call_unpacked (f : pyfun) (function_args : value) : result value :=
  match function_args with
  | VDict d => call_kw f d
  | _ =>
      raise TypeError ("__main__." ++ f.(fun_name)
                         ++ "() argument after ** must be a mapping, not "
                         ++ type_name function_args)
  end.

(* the prints made, and the JSON text returned or the exception raised *)
Definition execute_tool_call (h : host) (tool_call : tool_call)
  : list event * result json_text :=
  let function_name := tool_call.(function).(fn_name) in
  match json_loads tool_call.(function).(fn_arguments) with
  | Raise e => ([], Raise e)
  | Return function_args =>
      match json_dumps function_args with
      | Raise e => ([], Raise e)
      | Return _ =>
          let calling := [PrintCalling function_name function_args] in
          match assoc function_name (TOOL_FUNCTIONS h) with
          | Some f =>
              match call_unpacked f function_args with
              | Raise e => (calling, Raise e)
              | Return result =>
                  match json_dumps result with
                  | Raise e => (calling, Raise e)
                  | Return text => ((calling ++ [PrintResult result])%list, Return text)
                  end
              end
          | None =>
              (calling,
               json_dumps (VDict [("error", VStr ("Unknown function: " ++ function_name))]))
          end
      end
  end.

(** ** run_agent *)

Record state : Type := {
  messages : list message;
  iteration : Z;
  output : list event
}.

Definition emit (evs : list event) (st : state) : state :=
  {| messages := st.(messages); iteration := st.(iteration);
     output := st.(output) ++ evs |}.

Definition append (m : message) (st : state) : state :=
  {| messages := st.(messages) ++ [m]; iteration := st.(iteration);
     output := st.(output) |}.

(* the for loop over message.tool_calls; the exception, if one is raised,
   leaves the loop with the messages appended so far *)
Fixpoint dispatch_tool_calls (h : host) (calls : list tool_call) (st : state)
  : state * option pyexn :=
  match calls with
  | [] => (st, None)
  | tool_call :: rest =>
      let '(printed, outcome) := execute_tool_call h tool_call in
      let st := emit printed st in
      match outcome with
      | Raise e => (st, Some e)
      | Return result =>
          dispatch_tool_calls h rest
            (append (tool_message tool_call.(id) tool_call.(function).(fn_name) result) st)
      end
  end.

(* how one pass through the body of the while loop ends *)
Inductive control : Type :=
| Next                      (* back to the loop test *)
| Break
| Propagate (e : pyexn).    (* an exception [except Exception] does not catch *)

Definition system_prompt : string :=
  "You are a helpful AI agent with access to tools."
    ++ String (ascii_of_nat 10)
         "            Use tools when needed to answer questions accurately."
    ++ String (ascii_of_nat 10) "            Always explain your reasoning.".

Definition except_Exception (st : state) (e : pyexn) : state * control :=
  if is_Exception e then (emit [PrintError e] st, Break) else (st, Propagate e).

Definition loop_body (h : host) (st : state) : state * control :=
  let iteration := st.(iteration) + 1 in
  let st := {| messages := st.(messages); iteration := iteration;
               output := st.(output) ++ [PrintIteration iteration] |} in
  let st := emit [CallModel st.(messages)] st in
  match h.(chat_completions_create) st.(messages) with
  | Raise e => except_Exception st e
  | Return message =>
      let st := append (response_message message) st in
      match message.(tool_calls) with
      | [] => (emit [PrintFinalAnswer message.(content)] st, Break)
      | calls =>
          match dispatch_tool_calls h calls (emit [PrintThought] st) with
          | (st, Some e) => except_Exception st e
          | (st, None) => (st, Next)
          end
      end
  end.

(* while iteration < max_iterations; [fuel] bounds the passes, None means
   that it ran out *)
Fixpoint while_loop (fuel : nat) (h : host) (max_iterations : Z) (st : state)
  : option (state * option pyexn) :=
  if st.(iteration) <? max_iterations then
    match fuel with
    | O => None
    | S fuel' =>
        match loop_body h st with
        | (st', Next) => while_loop fuel' h max_iterations st'
        | (st', Break) => Some (st', None)
        | (st', Propagate e) => Some (st', Some e)
        end
    end
  else Some (st, None).

(* how a call of run_agent ends: the final state, and the exception that
   escaped it, if any *)
Record run : Type := {
  final : state;
  uncaught : option pyexn
}.

Definition run_agent (h : host) (user_query : string) (max_iterations : Z) : option run :=
  let st := {| messages := []; iteration := 0; output := [PrintTask user_query] |} in
  let '(warned, ok) := check_api_key h in
  let st := emit warned st in
  if negb ok then Some {| final := emit [PrintSkipping] st; uncaught := None |}
  else
    let st := {| messages := [role_message "system" system_prompt;
                              role_message "user" user_query];
                 iteration := 0;
                 output := st.(output) |} in
    match while_loop (Z.to_nat max_iterations) h max_iterations st with
    | None => None
    | Some (st, Some e) => Some {| final := st; uncaught := Some e |}
    | Some (st, None) =>
        Some {| final := if max_iterations <=? st.(iteration)
                         then emit [PrintReachedMaximum max_iterations] st else st;
                uncaught := None |}
    end.

(** ** Reading a run *)

Definition is_model_call (ev : event) : bool :=
  match ev with CallModel _ => true | _ => false end.

(* how many times the model API was called *)
Definition model_calls (r : run) : nat :=
  List.length (filter is_model_call r.(final).(output)).

Definition reports_answer (r : run) : bool :=
  existsb (fun ev => match ev with PrintFinalAnswer _ => true | _ => false end)
          r.(final).(output).

Definition reports_maximum (r : run) : bool :=
  existsb (fun ev => match ev with PrintReachedMaximum _ => true | _ => false end)
          r.(final).(output).



End Agent.

(** * Definitions used to state the properties *)

(** ** The validation the specification describes

    Following the specification's words (section 4.2): every required
    parameter is present; every present parameter's value conforms to its
    declared type and, if an allowed-value set is declared, is a member of it;
    unknown parameter names are rejected; a string-encoded number counts as a
    number.  Schemas are the JSON-schema dicts the source stores. *)

Fixpoint value_eqb (a b : value) {struct a} : bool :=
  match a, b with
  | VNone, VNone => true
  | VBool x, VBool y => Bool.eqb x y
  | VInt x, VInt y => x =? y
  | VFloat x, VFloat y => PyFloat.same x y
  | VStr x, VStr y => String.eqb x y
  | VList l, VList l' =>
      (fix all2 (l l' : list value) : bool :=
         match l, l' with
         | [], [] => true
         | x :: t, y :: t' => value_eqb x y && all2 t t'
         | _, _ => false
         end) l l'
  | VDict d, VDict d' =>
      (fix all2 (d d' : list (string * value)) : bool :=
         match d, d' with
         | [], [] => true
         | (k, x) :: t, (k', y) :: t' => String.eqb k k' && value_eqb x y && all2 t t'
         | _, _ => false
         end) d d'
  | VOpaque c t, VOpaque c' t' => String.eqb c c' && String.eqb t t'
  | _, _ => false
  end.

Definition schema_field (schema : value) (field : string) : option value :=
  match schema with
  | VDict d => dict_get d field
  | _ => None
  end.

Definition declared_properties (schema : value) : kwargs :=
  match schema_field schema "properties" with
  | Some (VDict p) => p
  | _ => []
  end.

Definition required_names (schema : value) : list string :=
  match schema_field schema "required" with
  | Some (VList l) => flat_map (fun v => match v with VStr s => [s] | _ => [] end) l
  | _ => []
  end.

Definition is_numeric_type (ty : string) : bool :=
  String.eqb ty "number" || String.eqb ty "integer".

Definition conforms_to_type (ty : string) (v : value) : bool :=
  match v with
  | VStr s => String.eqb ty "string"
              || (is_numeric_type ty
                  && match PyFloat.parse s with Some _ => true | None => false end)
  | VInt _ => is_numeric_type ty
  | VFloat _ => String.eqb ty "number"
  | VBool _ => String.eqb ty "boolean"
  | VNone => String.eqb ty "null"
  | VList _ => String.eqb ty "array"
  | VDict _ => String.eqb ty "object"
  | VOpaque _ _ => false
  end.

Definition conforms (declaration v : value) : bool :=
  match schema_field declaration "type" with
  | Some (VStr ty) => conforms_to_type ty v
  | _ => true
  end
  && match schema_field declaration "enum" with
     | Some (VList allowed) => existsb (value_eqb v) allowed
     | _ => true
     end.

(* true when the arguments pass, false when the specification's validator
   answers SchemaViolation *)
Definition spec_validate (schema : value) (arguments : kwargs) : bool :=
  forallb (dict_has arguments) (required_names schema)
  && forallb (fun kv => match dict_get (declared_properties schema) (fst kv) with
                        | Some declaration => conforms declaration (snd kv)
                        | None => false
                        end) arguments.

(** ** The capability of the specification's first scenario: add(a, b) -> a + b *)

Definition add_capability : pyfun :=
  {| fun_name := "add";
     fun_params := [("a", None); ("b", None)];
     fun_body := fun arg => py_add (arg "a") (arg "b") |}.

(** ** Reading a model turn *)

(* the tool message [run_agent] appends for a call that returned *)
Definition tool_message_of (h : Agent.host) (tc : Agent.tool_call) : option Agent.message :=
  match snd (Agent.execute_tool_call h tc) with
  | Return text =>
      Some (Agent.tool_message tc.(Agent.id) tc.(Agent.function).(Agent.fn_name) text)
  | Raise _ => None
  end.

(* the tool messages of the calls that come before the first one that raises *)
Fixpoint executed_prefix (h : Agent.host) (calls : list Agent.tool_call)
  : list Agent.message :=
  match calls with
  | [] => []
  | tc :: rest =>
      match tool_message_of h tc with
      | Some m => m :: executed_prefix h rest
      | None => []
      end
  end.


(* a model that asks for the same calls whatever it is sent (none of the
   examples raises a float to a power, so [float_pow] is never consulted) *)
Definition scripted_host (calls : list Agent.tool_call) : Agent.host :=
  {| Agent.OPENAI_API_KEY := Some "sk-demo";
     Agent.chat_completions_create :=
       fun _ => Return {| Agent.content := None; Agent.tool_calls := calls |};
     Agent.float_pow := fun _ _ => raise OverflowError "(34, 'Numerical result out of range')";
     Agent.now_isoformat := "2024-05-01T12:00:00" |}.

Definition request (id name : string) (arguments : kwargs) : Agent.tool_call :=
  {| Agent.id := id;
     Agent.function := {| Agent.fn_name := name;
                          Agent.fn_arguments := Agent.JsonOf (VDict arguments) |} |}.

(* a model that answers at once *)
Definition answering_host (answer : string) : Agent.host :=
  {| Agent.OPENAI_API_KEY := Some "sk-demo";
     Agent.chat_completions_create :=
       fun _ => Return {| Agent.content := Some answer; Agent.tool_calls := [] |};
     Agent.float_pow := fun _ _ => raise OverflowError "(34, 'Numerical result out of range')";
     Agent.now_isoformat := "2024-05-01T12:00:00" |}.

(** ** Servers, hosts and runs used in the examples *)

(* two tools and two resources registered under one name *)
Definition shadowed_server : MCP.SimpleMCPServer :=
  let s := MCP.init "shadowed" in
  let s := MCP.register_tool s "echo" "Echo back a message" (call_kw MCP.echo_tool) in
  let s := MCP.register_tool s "echo" "Add two numbers" (call_kw add_capability) in
  let s := MCP.register_resource s "resource://config" "First" "text/plain" "first" in
  MCP.register_resource s "resource://config" "Second" "text/plain" "second".


Definition calculator_arguments (operation a b : value) : kwargs :=
  [("operation", operation); ("a", a); ("b", b)].

(* the exception of the first call that raises, if one does *)
Fixpoint first_raise (h : Agent.host) (calls : list Agent.tool_call) : option pyexn :=
  match calls with
  | [] => None
  | tc :: rest =>
      match snd (Agent.execute_tool_call h tc) with
      | Raise e => Some e
      | Return _ => first_raise h rest
      end
  end.


Definition calls_in (out : list Agent.event) : nat :=
  List.length (filter Agent.is_model_call out).

Definition is_tool_print (ev : Agent.event) : bool :=
  match ev with
  | Agent.PrintCalling _ _ | Agent.PrintResult _ => true
  | _ => false
  end.


(* a model that keeps asking for a search of the knowledge base *)
Definition searching_host : Agent.host :=
  scripted_host [request "call_1" "search_knowledge_base"
                   [("query", VStr "What is an agent?")]].



Definition three_calls_host : Agent.host :=
  scripted_host [request "call_a" "alpha" [];
                 request "call_b" "search_knowledge_base" [("query", VStr "llm")];
                 request "call_c" "gamma" []].

Definition first_turn (user_query : string) : Agent.state :=
  {| Agent.messages := [Agent.role_message "system" Agent.system_prompt;
                        Agent.role_message "user" user_query];
     Agent.iteration := 0;
     Agent.output := [Agent.PrintTask user_query] |}.



(* a model that asks for an unknown tool until the transcript holds [turns]
   exchanges, and answers then *)
Definition late_answer_host (turns : nat) (answer : string) : Agent.host :=
  {| Agent.OPENAI_API_KEY := Some "sk-demo";
     Agent.chat_completions_create :=
       fun sent =>
         if (List.length sent <? 2 + 2 * turns)%nat
         then Return {| Agent.content := None;
                        Agent.tool_calls := [request "call_1" "lookup" []] |}
         else Return {| Agent.content := Some answer; Agent.tool_calls := [] |};
     Agent.float_pow := fun _ _ => raise OverflowError "(34, 'Numerical result out of range')";
     Agent.now_isoformat := "2024-05-01T12:00:00" |}.


(* the parameters schema of an entry of the advertised [tools] list *)
Definition parameters_of (entry : value) : value :=
  match schema_field entry "function" with
  | Some f => match schema_field f "parameters" with Some ps => ps | None => VNone end
  | None => VNone
  end.

(** ** Definitions used to state further properties of the two programs *)

(* one call of [register_tool] or [register_resource] *)
Inductive registration : Type :=
| RegisterTool (name description : string) (handler : MCP.handler)
| RegisterResource (uri name mime_type content : string).

Definition register (self : MCP.SimpleMCPServer) (r : registration)
  : MCP.SimpleMCPServer :=
  match r with
  | RegisterTool name description handler =>
      MCP.register_tool self name description handler
  | RegisterResource uri name mime_type content =>
      MCP.register_resource self uri name mime_type content
  end.

(* the registrations made one after the other *)
Definition register_all (self : MCP.SimpleMCPServer) (rs : list registration)
  : MCP.SimpleMCPServer :=
  fold_left register rs self.

(* what a listing is expected to show for the tools among [rs] *)
Definition tool_summaries (rs : list registration) : list value :=
  flat_map (fun r => match r with
                     | RegisterTool name description _ =>
                         [VDict [("name", VStr name);
                                 ("description", VStr description);
                                 ("inputSchema", MCP.empty_schema)]]
                     | RegisterResource _ _ _ _ => []
                     end) rs.

(* what a listing is expected to show for the resources among [rs] *)
Definition resource_summaries (rs : list registration) : list value :=
  flat_map (fun r => match r with
                     | RegisterResource uri name mime_type _ =>
                         [VDict [("uri", VStr uri);
                                 ("name", VStr name);
                                 ("mimeType", VStr mime_type);
                                 ("description", VStr ("Resource: " ++ name))]]
                     | RegisterTool _ _ _ => []
                     end) rs.

(* the message lists the model API was called with, in order *)
Definition sent_transcripts (out : list Agent.event) : list (list Agent.message) :=
  flat_map (fun ev => match ev with
                      | Agent.CallModel sent => [sent]
                      | _ => []
                      end) out.

Definition is_maximum_report (ev : Agent.event) : bool :=
  match ev with
  | Agent.PrintReachedMaximum _ => true
  | _ => false
  end.

(* the two messages every run starts from *)
Definition opening_messages (user_query : string) : list Agent.message :=
  [Agent.role_message "system" Agent.system_prompt;
   Agent.role_message "user" user_query].

(* a host whose pow does what CPython's does for a zero base and a negative
   exponent; the examples ask it for nothing else *)
Definition zero_base_host : Agent.host :=
  {| Agent.OPENAI_API_KEY := Some "sk-demo";
     Agent.chat_completions_create :=
       fun _ => Return {| Agent.content := Some "done"; Agent.tool_calls := [] |};
     Agent.float_pow :=
       fun x y =>
         match x, y with
         | S754_zero _, S754_finite true _ _ =>
             raise ZeroDivisionError "0.0 cannot be raised to a negative power"
         | _, _ => raise OverflowError "(34, 'Numerical result out of range')"
         end;
     Agent.now_isoformat := "2024-05-01T12:00:00" |}.

(* a host without an API key *)
Definition keyless_host : Agent.host :=
  {| Agent.OPENAI_API_KEY := None;
     Agent.chat_completions_create :=
       fun _ => Return {| Agent.content := Some "done"; Agent.tool_calls := [] |};
     Agent.float_pow := fun _ _ => raise OverflowError "(34, 'Numerical result out of range')";
     Agent.now_isoformat := "2024-05-01T12:00:00" |}.

(* a host whose model API fails with the given exception *)
Definition failing_api_host (e : pyexn) : Agent.host :=
  {| Agent.OPENAI_API_KEY := Some "sk-demo";
     Agent.chat_completions_create := fun _ => Raise e;
     Agent.float_pow := fun _ _ => raise OverflowError "(34, 'Numerical result out of range')";
     Agent.now_isoformat := "2024-05-01T12:00:00" |}.




(** * The Python layer on known values

    What CPython 3.11 prints for the same expressions. *)

Example repr_of_floats :
  map PyFloat.repr
    [PyFloat.of_Z 42; PyFloat.of_ratio false 1 10; PyFloat.of_ratio false 1 3;
     PyFloat.of_Z (10 ^ 16); PyFloat.of_Z (10 ^ 15); PyFloat.of_ratio true 1 100000;
     PyFloat.of_decimal false 5 (-324); PyFloat.of_Z (2 ^ 63)]
  = ["42.0"; "0.1"; "0.3333333333333333"; "1e+16"; "1000000000000000.0"; "-1e-05";
     "5e-324"; "9.223372036854776e+18"].
Proof. vm_compute. reflexivity. Qed.

Example float_of_texts :
  map (fun s => option_map PyFloat.repr (PyFloat.parse s))
    ["27"; " 27 "; "1_000"; "2.5e3"; ".5"; "-inf"; "NaN"; "1e999";
     "abc"; "1__0"; "1e"; "0x10"; "1,5"; "."]
  = [Some "27.0"; Some "27.0"; Some "1000.0"; Some "2500.0"; Some "0.5"; Some "-inf";
     Some "nan"; Some "inf"; None; None; None; None; None; None].
Proof. vm_compute. reflexivity. Qed.

Example str_of_values :
  map py_str
    [VNone; VBool true; VInt (-7); VStr "a'b";
     VList [VInt 1; VStr "a'b"; VDict [("k", VFloat (PyFloat.of_ratio false 3 2))]]]
  = ["None"; "True"; "-7"; "a'b";
     "[1, " ++ String dquote "a'b" ++ String dquote ", {'k': 1.5}]"].
Proof. vm_compute. reflexivity. Qed.

Example binding_messages :
  map (fun kw => call_kw MCP.calculator_tool kw)
    [[]; [("operation", VStr "add"); ("a", VInt 1)]; [("x", VInt 1)]]
  = [raise TypeError
       "calculator_tool() missing 3 required positional arguments: 'operation', 'a', and 'b'";
     raise TypeError "calculator_tool() missing 1 required positional argument: 'b'";
     raise TypeError "calculator_tool() got an unexpected keyword argument 'x'"].
Proof. vm_compute. reflexivity. Qed.

(* the agent's tools on the questions [main] asks *)
Example agent_tools_on_main_questions :
  call_kw (Agent.calculator searching_host)
    [("operation", VStr "multiply"); ("a", VInt 15); ("b", VInt 23)]
  = Return (VDict [("operation", VStr "multiply"); ("result", VInt 345);
                   ("calculation", VStr "multiply(15, 23) = 345")])
  /\ option_map py_str
       (match call_kw (Agent.get_weather searching_host)
                [("location", VStr "Tokyo"); ("unit", VStr "fahrenheit")] with
        | Return (VDict d) => dict_get d "temp"
        | _ => None
        end)
     = Some "77.0"
  /\ call_kw Agent.search_knowledge_base [("query", VStr "What is an AI agent?")]
     = Return (VDict [("found", VBool true); ("query", VStr "What is an AI agent?");
                      ("answer",
                       VStr "Artificial Intelligence enables machines to learn and make decisions.")]).
Proof. repeat split; vm_compute; reflexivity. Qed.

(** * Properties of the MCP server *)

Section Registry.

Import MCP.

Lemma call_tool_from_first (before after : list tool) (t : tool) (arguments : kwargs) :
  (forall t', In t' before -> tool_name t' <> tool_name t) ->
  call_tool_from (before ++ t :: after) (tool_name t) arguments = invoke t arguments.
Proof.
  induction before as [|t0 before IH]; intros Hfresh; simpl.
  - now rewrite String.eqb_refl.
  - destruct (String.eqb_spec (tool_name t0) (tool_name t)) as [Heq|_].
    + exfalso. apply (Hfresh t0); [now left | exact Heq].
    + apply IH. intros t' Hin. apply Hfresh. now right.
Qed.

Lemma call_tool_from_unknown (ts : list tool) (tool_name : string) (arguments : kwargs) :
  (forall t, In t ts -> MCP.tool_name t <> tool_name) ->
  call_tool_from ts tool_name arguments = Return (error_response "Tool not found").
Proof.
  induction ts as [|t ts IH]; intros Hfresh; simpl; [reflexivity|].
  destruct (String.eqb_spec (MCP.tool_name t) tool_name) as [Heq|_].
  - exfalso. apply (Hfresh t); [now left | exact Heq].
  - apply IH. intros t' Hin. apply Hfresh. now right.
Qed.

Lemma call_tool_from_registered (ts more : list tool) (tool_name : string)
  (arguments : kwargs) :
  (exists t, In t ts /\ MCP.tool_name t = tool_name) ->
  call_tool_from (ts ++ more) tool_name arguments = call_tool_from ts tool_name arguments.
Proof.
  induction ts as [|t ts IH]; intros [t0 [Hin Hname]]; simpl.
  - destruct Hin.
  - destruct (String.eqb_spec (MCP.tool_name t) tool_name) as [_|Hneq]; [reflexivity|].
    apply IH. exists t0. split; [|exact Hname].
    destruct Hin as [->|Hin]; [contradiction | exact Hin].
Qed.


Lemma read_resource_from_registered (rs more : list resource) (uri : string) :
  (exists r, In r rs /\ res_uri r = uri) ->
  read_resource_from (rs ++ more) uri = read_resource_from rs uri.
Proof.
  induction rs as [|r rs IH]; intros [r0 [Hin Huri]]; simpl.
  - destruct Hin.
  - destruct (String.eqb_spec (res_uri r) uri) as [_|Hneq]; [reflexivity|].
    apply IH. exists r0. split; [|exact Huri].
    destruct Hin as [->|Hin]; [contradiction | exact Hin].
Qed.


End Registry.


(** ** Registration *)

(** C5, as the code has it. Registration never fails and never replaces: the
    new entry goes after the existing ones, which stay as they were, whether
    or not its name (or uri) is already registered; a name that was registered
    before keeps resolving to its original entry. *)
Theorem register_appends_and_keeps_entries (self : MCP.SimpleMCPServer)
  (name description : string) (handler : MCP.handler)
  (uri rname mime_type content : string) :
  let with_tool := MCP.register_tool self name description handler in
  let with_resource := MCP.register_resource self uri rname mime_type content in
  MCP.tools with_tool
    = (MCP.tools self ++ [MCP.Build_tool name description handler MCP.empty_schema])%list
  /\ MCP.resources with_tool = MCP.resources self
  /\ (forall tool_name arguments,
         (exists t, In t (MCP.tools self) /\ MCP.tool_name t = tool_name) ->
         MCP.call_tool with_tool tool_name arguments = MCP.call_tool self tool_name arguments)
  /\ MCP.resources with_resource
     = (MCP.resources self
          ++ [MCP.Build_resource uri rname mime_type ("Resource: " ++ rname) content])%list
  /\ MCP.tools with_resource = MCP.tools self
  /\ (forall u,
         (exists r, In r (MCP.resources self) /\ MCP.res_uri r = u) ->
         MCP.read_resource with_resource u = MCP.read_resource self u).
Proof.
  cbv zeta. repeat split.
  - intros tool_name arguments Hreg. unfold MCP.call_tool. simpl.
    now apply call_tool_from_registered.
  - intros u Hreg. unfold MCP.read_resource. simpl.
    now apply read_resource_from_registered.
Qed.

Lemma register_appends_and_keeps_entries_witness :
  MCP.call_tool shadowed_server "echo" [("message", VStr "kept")]
  = MCP.call_tool
      (MCP.register_tool (MCP.init "shadowed") "echo" "Echo back a message"
         (call_kw MCP.echo_tool))
      "echo" [("message", VStr "kept")].
Proof.
  pose proof (register_appends_and_keeps_entries
                (MCP.register_tool (MCP.init "shadowed") "echo" "Echo back a message"
                   (call_kw MCP.echo_tool))
                "echo" "Add two numbers" (call_kw add_capability)
                "resource://config" "First" "text/plain" "first") as H.
  cbv zeta in H. destruct H as (_ & _ & Hcall & _).
  unfold shadowed_server, MCP.call_tool. simpl MCP.tools.
  apply (Hcall "echo" [("message", VStr "kept")]).
  eexists. split; [left; reflexivity | reflexivity].
Defined.

(* registering a name twice neither fails nor keeps the names distinct *)
Lemma duplicate_registration_is_accepted :
  map MCP.tool_name (MCP.tools shadowed_server) = ["echo"; "echo"]
  /\ ~ NoDup (map MCP.tool_name (MCP.tools shadowed_server))
  /\ map MCP.res_uri (MCP.resources shadowed_server)
     = ["resource://config"; "resource://config"]
  /\ ~ NoDup (map MCP.res_uri (MCP.resources shadowed_server)).
Proof.
  repeat split.
  - intros H. inversion H as [|x l Hnotin _]; subst. apply Hnotin. now left.
  - intros H. inversion H as [|x l Hnotin _]; subst. apply Hnotin. now left.
Qed.

(** ** Arguments and schemas *)

Lemma call_tool_from_ignores_schemas (ts ts' : list MCP.tool) (tool_name : string)
  (arguments : kwargs) :
  Forall2 (fun t t' => MCP.tool_name t = MCP.tool_name t'
                       /\ MCP.tool_handler t = MCP.tool_handler t') ts ts' ->
  MCP.call_tool_from ts tool_name arguments = MCP.call_tool_from ts' tool_name arguments.
Proof.
  induction 1 as [|t t' ts ts' [Hname Hhandler] _ IH]; simpl; [reflexivity|].
  rewrite <- Hname, IH. unfold MCP.invoke. now rewrite Hhandler.
Qed.

Lemma call_kw_unexpected (f : pyfun) (kw : kwargs) :
  (exists k, In k (map fst kw) /\ is_param (fun_params f) k = false) ->
  exists msg, call_kw f kw = raise TypeError msg.
Proof.
  intros [k [Hin Hk]]. unfold call_kw.
  destruct (find (fun kv => negb (is_param (fun_params f) (fst kv))) kw)
    as [[k' v']|] eqn:Hfind.
  - eexists. reflexivity.
  - exfalso. apply in_map_iff in Hin. destruct Hin as [[k0 v0] [Hk0 Hin]].
    simpl in Hk0. subst k0.
    pose proof (find_none _ _ Hfind _ Hin) as Hnone. simpl in Hnone.
    rewrite Hk in Hnone. discriminate.
Qed.

Lemma call_kw_missing (f : pyfun) (kw : kwargs) :
  missing_params (fun_params f) kw <> [] ->
  exists msg, call_kw f kw = raise TypeError msg.
Proof.
  intros Hmissing. unfold call_kw.
  destruct (find (fun kv => negb (is_param (fun_params f) (fst kv))) kw) as [[k v]|].
  - eexists. reflexivity.
  - destruct (missing_params (fun_params f) kw) as [|m ms]; [contradiction|].
    eexists. reflexivity.
Qed.

Lemma call_kw_bound (f : pyfun) (kw : kwargs) :
  (forall k, In k (map fst kw) -> is_param (fun_params f) k = true) ->
  missing_params (fun_params f) kw = [] ->
  call_kw f kw = fun_body f (bound_value (fun_params f) kw).
Proof.
  intros Hnames Hmissing. unfold call_kw. rewrite Hmissing.
  destruct (find (fun kv => negb (is_param (fun_params f) (fst kv))) kw)
    as [[k v]|] eqn:Hfind; [|reflexivity].
  exfalso. apply find_some in Hfind. destruct Hfind as [Hin Hneg].
  simpl in Hneg. rewrite (Hnames k) in Hneg; [discriminate|].
  apply in_map_iff. exists (k, v). now split.
Qed.

(** C4, as the code has it. [call_tool] validates nothing: every registration
    stores the same schema with no declared property; the outcome of a call
    does not depend on the stored schemas; the arguments go to the handler as
    they were given.  What a handler written as a Python function rejects is
    what the call's own binding rejects, a keyword that is not one of its
    parameters or a parameter left without a value, and then its body does not
    run; otherwise the body runs on the values as passed, whatever their type. *)
Theorem call_tool_validates_nothing (self : MCP.SimpleMCPServer) :
  (forall name description handler,
      MCP.tools (MCP.register_tool self name description handler)
      = (MCP.tools self ++ [MCP.Build_tool name description handler MCP.empty_schema])%list)
  /\ (forall other tool_name arguments,
         Forall2 (fun t t' => MCP.tool_name t = MCP.tool_name t'
                              /\ MCP.tool_handler t = MCP.tool_handler t')
                 (MCP.tools self) (MCP.tools other) ->
         MCP.call_tool self tool_name arguments = MCP.call_tool other tool_name arguments)
  /\ (forall (before : list MCP.tool) t after arguments,
         MCP.tools self = (before ++ t :: after)%list ->
         (forall t', In t' before -> MCP.tool_name t' <> MCP.tool_name t) ->
         MCP.call_tool self (MCP.tool_name t) arguments
         = match MCP.tool_handler t arguments with
           | Return result => Return (MCP.content_response (py_str result))
           | Raise e => if is_Exception e then Return (MCP.error_response (exn_str e))
                        else Raise e
           end)
  /\ (forall f kw,
         ((exists k, In k (map fst kw) /\ is_param (fun_params f) k = false)
          \/ missing_params (fun_params f) kw <> [] ->
          exists msg, call_kw f kw = raise TypeError msg)
         /\ ((forall k, In k (map fst kw) -> is_param (fun_params f) k = true) ->
             missing_params (fun_params f) kw = [] ->
             call_kw f kw = fun_body f (bound_value (fun_params f) kw))).
Proof.
  repeat split.
  - intros other tool_name arguments Hsame. unfold MCP.call_tool.
    now apply call_tool_from_ignores_schemas.
  - intros before t after arguments Htools Hfresh. unfold MCP.call_tool.
    rewrite Htools. now apply call_tool_from_first.
  - intros [Hunexpected|Hmissing];
      [now apply call_kw_unexpected | now apply call_kw_missing].
  - apply call_kw_bound.
Qed.

(* the call of echo that [main] makes: the stored schema declares no
   [message], the specification's validator turns the arguments down, and the
   handler has run all the same; it also runs on a number *)
Lemma echo_runs_on_unvalidated_arguments :
  map MCP.tool_inputSchema (MCP.tools (MCP.main_server "2024-05-01 12:00:00"))
  = [MCP.empty_schema; MCP.empty_schema; MCP.empty_schema]
  /\ spec_validate MCP.empty_schema [("message", VStr "Hello, MCP!")] = false
  /\ MCP.call_tool (MCP.main_server "2024-05-01 12:00:00") "echo"
       [("message", VStr "Hello, MCP!")]
     = Return (MCP.content_response "Echo: Hello, MCP!")
  /\ MCP.call_tool (MCP.main_server "2024-05-01 12:00:00") "echo" [("message", VInt 42)]
     = Return (MCP.content_response "Echo: 42").
Proof. repeat split. Qed.

Lemma call_tool_validates_nothing_witness :
  (exists msg,
      call_kw MCP.calculator_tool [("operation", VStr "add"); ("a", VInt 1)]
      = raise TypeError msg)
  /\ call_kw MCP.echo_tool [("message", VInt 42)] = Return (VStr "Echo: 42").
Proof.
  destruct (call_tool_validates_nothing (MCP.init "demo")) as (_ & _ & _ & Hbind).
  split.
  - apply (Hbind MCP.calculator_tool [("operation", VStr "add"); ("a", VInt 1)]).
    right. simpl. discriminate.
  - apply (Hbind MCP.echo_tool [("message", VInt 42)]).
    + intros k [<-|[]]. reflexivity.
    + reflexivity.
Defined.

(** ** The calculator tool *)

Lemma calculator_call (clock : string) (operation a b : value) :
  MCP.call_tool (MCP.main_server clock) "calculator" (calculator_arguments operation a b)
  = MCP.invoke
      (MCP.Build_tool "calculator" "Perform basic arithmetic operations"
         (fun kw => fun_body MCP.calculator_tool (bound_value (fun_params MCP.calculator_tool) kw))
         MCP.empty_schema)
      (calculator_arguments operation a b).
Proof. reflexivity. Qed.





(** ** The first end-to-end scenario *)



(** * Properties of the agent loop *)

Section AgentLoop.

Import Agent.

Variable h : host.

Lemma execute_tool_call_prints (tc : tool_call) :
  forallb is_tool_print (fst (execute_tool_call h tc)) = true.
Proof.
  unfold execute_tool_call.
  destruct (json_loads (fn_arguments (function tc))) as [function_args|e]; [|reflexivity].
  destruct (json_dumps function_args) as [shown|e]; [|reflexivity].
  destruct (assoc (fn_name (function tc)) (TOOL_FUNCTIONS h)) as [f|]; [|reflexivity].
  destruct (call_unpacked f function_args) as [result|e]; [|reflexivity].
  destruct (json_dumps result) as [text|e]; reflexivity.
Qed.

Lemma calls_in_app (out evs : list event) :
  calls_in (out ++ evs) = (calls_in out + calls_in evs)%nat.
Proof. unfold calls_in. now rewrite filter_app, length_app. Qed.

Lemma tool_prints_hold_no_call (evs : list event) :
  forallb is_tool_print evs = true -> calls_in evs = 0%nat.
Proof.
  induction evs as [|ev evs IH]; [reflexivity|]. simpl. intros H.
  apply andb_prop in H. destruct H as [Hev Hevs].
  destruct ev; try discriminate; exact (IH Hevs).
Qed.


Lemma dispatch_tool_calls_spec (calls : list tool_call) (st : state) :
  let st' := fst (dispatch_tool_calls h calls st) in
  messages st' = (messages st ++ executed_prefix h calls)%list
  /\ iteration st' = iteration st
  /\ (exists evs, output st' = (output st ++ evs)%list /\ forallb is_tool_print evs = true)
  /\ snd (dispatch_tool_calls h calls st) = first_raise h calls.
Proof.
  revert st. induction calls as [|tc rest IH]; intros st; simpl.
  - rewrite app_nil_r. repeat split. exists []. now rewrite app_nil_r.
  - unfold tool_message_of. pose proof (execute_tool_call_prints tc) as Hprints.
    destruct (execute_tool_call h tc) as [printed [text|e]]; simpl in *.
    + destruct (IH (append (tool_message (id tc) (fn_name (function tc)) text)
                      (emit printed st))) as (Hm & Hi & [evs [Ho Hevs]] & Hr).
      repeat split.
      * rewrite Hm. simpl. now rewrite <- app_assoc.
      * rewrite Hi. reflexivity.
      * exists (printed ++ evs)%list. split.
        -- rewrite Ho. simpl. now rewrite <- app_assoc.
        -- rewrite forallb_app, Hprints, Hevs. reflexivity.
      * exact Hr.
    + repeat split.
      * now rewrite app_nil_r.
      * exists printed. now split.
Qed.



(* one pass of the loop: the counter goes up by one, the model is called
   once, and the messages gain the response and the tool messages of the calls
   that ran *)
Lemma loop_body_step (st : state) :
  let st' := fst (loop_body h st) in
  iteration st' = iteration st + 1
  /\ calls_in (output st') = S (calls_in (output st))
  /\ (forall m, chat_completions_create h (messages st) = Return m ->
        messages st'
        = (messages st ++ response_message m :: executed_prefix h (tool_calls m))%list).
Proof.
  unfold loop_body. cbn [messages iteration output emit].
  destruct (chat_completions_create h (messages st)) as [m|e].
  - destruct (tool_calls m) as [|tc rest] eqn:Hcalls.
    + simpl. repeat split.
      * rewrite !calls_in_app. unfold calls_in. simpl. lia.
      * intros m' [= <-]. now rewrite Hcalls.
    + match goal with
      | |- context [dispatch_tool_calls h ?cs ?s] =>
          pose proof (dispatch_tool_calls_spec cs s) as Hd;
          destruct (dispatch_tool_calls h cs s) as [st1 [e|]]
      end; cbv zeta in Hd; simpl fst in Hd; simpl snd in Hd;
        destruct Hd as (Hm & Hi & [evs [Ho Hevs]] & _);
        simpl in Hm, Hi, Ho.
      * unfold except_Exception. destruct (is_Exception e); simpl; repeat split;
          try (rewrite Hi; reflexivity);
          try (rewrite Ho, !calls_in_app, (tool_prints_hold_no_call evs Hevs);
               unfold calls_in; simpl; lia);
          try (intros m' [= <-]; rewrite Hm, Hcalls, <- app_assoc; reflexivity).
      * simpl; repeat split;
          try (rewrite Hi; reflexivity);
          try (rewrite Ho, !calls_in_app, (tool_prints_hold_no_call evs Hevs);
               unfold calls_in; simpl; lia);
          try (intros m' [= <-]; rewrite Hm, Hcalls, <- app_assoc; reflexivity).
  - unfold except_Exception. destruct (is_Exception e); simpl; repeat split;
      try (rewrite !calls_in_app; unfold calls_in; simpl; lia); intros m' [=].
Qed.

(* with enough fuel the loop ends, having called the model once per pass and
   never with the counter above the ceiling *)
Lemma while_loop_runs (max_iterations : Z) (fuel : nat) (st : state) :
  (Z.to_nat (max_iterations - iteration st) <= fuel)%nat ->
  exists st' escaped,
    while_loop fuel h max_iterations st = Some (st', escaped)
    /\ Z.of_nat (calls_in (output st')) - Z.of_nat (calls_in (output st))
       = iteration st' - iteration st
    /\ iteration st <= iteration st'
    /\ iteration st' <= Z.max (iteration st) max_iterations.
Proof.
  revert st. induction fuel as [|fuel IH]; intros st Hfuel.
  - exists st, None. simpl.
    destruct (Z.ltb_spec (iteration st) max_iterations); [lia|].
    repeat split; lia.
  - simpl. destruct (Z.ltb_spec (iteration st) max_iterations) as [Hlt|Hge].
    + destruct (loop_body_step st) as (Hi & Hc & _).
      destruct (loop_body h st) as [st1 [| |e]]; simpl in Hi, Hc.
      * destruct (IH st1) as (st' & escaped & Hrun & Hcalls & Hle & Hmax); [lia|].
        exists st', escaped. repeat split; [exact Hrun | lia | lia | lia].
      * exists st1, None. repeat split; lia.
      * exists st1, (Some e). repeat split; lia.
    + exists st, None. repeat split; lia.
Qed.

End AgentLoop.

Section AgentRuns.

Import Agent.

Variable h : host.

Lemma check_api_key_ok :
  snd (check_api_key h) = true -> check_api_key h = ([], true).
Proof.
  unfold check_api_key. destruct (OPENAI_API_KEY h) as [api_key|]; [|discriminate].
  destruct (String.eqb api_key EmptyString || String.eqb api_key "your_openai_api_key_here");
    [discriminate | reflexivity].
Qed.






End AgentRuns.



Section ModelTurn.

Import Agent.

Variable h : host.






End ModelTurn.





(** ** Unknown names *)

(** C3, as the code has it. [call_tool] with a name that no registered tool
    has answers, whatever the arguments, with the error response "Tool not
    found", which does not hold the name, and raises nothing.
    [execute_tool_call] with a name that is not in TOOL_FUNCTIONS, when the
    arguments are JSON, returns the JSON text of an error entry that holds the
    name. *)
Theorem unknown_name_outcomes :
  (forall (self : MCP.SimpleMCPServer) (tool_name : string) (arguments : kwargs),
      (forall t, In t (MCP.tools self) -> MCP.tool_name t <> tool_name) ->
      MCP.call_tool self tool_name arguments
      = Return (MCP.error_response "Tool not found"))
  /\ (forall (h : Agent.host) (tc : Agent.tool_call) (function_args : value),
         assoc (Agent.fn_name (Agent.function tc)) (Agent.TOOL_FUNCTIONS h) = None ->
         Agent.fn_arguments (Agent.function tc) = Agent.JsonOf function_args ->
         Agent.first_opaque function_args = None ->
         Agent.execute_tool_call h tc
         = ([Agent.PrintCalling (Agent.fn_name (Agent.function tc)) function_args],
            Return (Agent.JsonOf
                      (VDict [("error",
                               VStr ("Unknown function: "
                                       ++ Agent.fn_name (Agent.function tc)))])))).
Proof.
  split.
  - intros self tool_name arguments Hfresh. unfold MCP.call_tool.
    now apply call_tool_from_unknown.
  - intros h tc function_args Hunknown Harguments Hjson.
    unfold Agent.execute_tool_call. rewrite Harguments. cbn [Agent.json_loads].
    unfold Agent.json_dumps at 1. rewrite Hjson, Hunknown. reflexivity.
Qed.

Lemma unknown_name_outcomes_witness :
  MCP.call_tool (MCP.main_server "2024-05-01 12:00:00") "subtract"
    [("a", VInt 5); ("b", VInt 3)]
  = Return (MCP.error_response "Tool not found")
  /\ snd (Agent.execute_tool_call searching_host
            (request "call_1" "subtract" [("a", VInt 5); ("b", VInt 3)]))
     = Return (Agent.JsonOf (VDict [("error", VStr "Unknown function: subtract")])).
Proof.
  destruct unknown_name_outcomes as [Hmcp Hagent]. split.
  - apply Hmcp. intros t [<-|[<-|[<-|[]]]]; discriminate.
  - rewrite (Hagent searching_host
               (request "call_1" "subtract" [("a", VInt 5); ("b", VInt 3)])
               (VDict [("a", VInt 5); ("b", VInt 3)]) eq_refl eq_refl eq_refl).
    reflexivity.
Defined.

(* the MCP server answers two unknown names with one and the same response,
   so the response does not hold the name; and [execute_tool_call] raises on an
   unknown name when the arguments are not JSON, since it decodes them first *)
Lemma unknown_name_is_dropped_or_raises :
  MCP.call_tool (MCP.main_server "2024-05-01 12:00:00") "subtract" []
  = MCP.call_tool (MCP.main_server "2024-05-01 12:00:00") "modulo" []
  /\ MCP.call_tool (MCP.main_server "2024-05-01 12:00:00") "subtract" []
     = Return (VDict [("error", VStr "Tool not found")])
  /\ Agent.execute_tool_call searching_host
       {| Agent.id := "call_1";
          Agent.function :=
            {| Agent.fn_name := "subtract";
               Agent.fn_arguments :=
                 Agent.NotJson "Expecting value: line 1 column 1 (char 0)" |} |}
     = ([], Raise {| exn_type := JSONDecodeError;
                     exn_str := "Expecting value: line 1 column 1 (char 0)" |}).
Proof. repeat split. Qed.

(** ** How a run reports its end *)

(** C6 fails on the code: an answer given on the last permitted pass is
    followed by the report that the maximum was reached, both for a ceiling of
    1 and for the default ceiling of 5; an answer given one pass earlier is
    not. *)
Theorem answer_on_last_pass_reports_both :
  option_map (fun r => (Agent.model_calls r, Agent.reports_answer r, Agent.reports_maximum r))
    (Agent.run_agent (answering_host "42") "What is 6 times 7?" 1)
  = Some (1%nat, true, true)
  /\ option_map (fun r => (Agent.model_calls r, Agent.reports_answer r,
                           Agent.reports_maximum r))
       (Agent.run_agent (late_answer_host 4 "42") "What is 6 times 7?" 5)
     = Some (5%nat, true, true)
  /\ option_map (fun r => (Agent.model_calls r, Agent.reports_answer r,
                           Agent.reports_maximum r))
       (Agent.run_agent (late_answer_host 3 "42") "What is 6 times 7?" 5)
     = Some (4%nat, true, false).
Proof. repeat split; vm_compute; reflexivity. Qed.

(** * Further properties of the MCP server *)

Section RegistryFrame.

Import MCP.



Lemma read_resource_from_skips (rs more : list resource) (uri : string) :
  (forall r, In r rs -> res_uri r <> uri) ->
  read_resource_from (rs ++ more) uri = read_resource_from more uri.
Proof.
  induction rs as [|r rs IH]; intros Hfresh; simpl; [reflexivity|].
  destruct (String.eqb_spec (res_uri r) uri) as [Heq|_].
  - exfalso. apply (Hfresh r); [now left | exact Heq].
  - apply IH. intros r' Hin. apply Hfresh. now right.
Qed.

Lemma read_resource_from_other (rs : list resource) (r : resource) (uri : string) :
  res_uri r <> uri ->
  read_resource_from (rs ++ [r]) uri = read_resource_from rs uri.
Proof.
  intros Hother. induction rs as [|r0 rs IH]; simpl.
  - destruct (String.eqb_spec (res_uri r) uri); [contradiction | reflexivity].
  - destruct (String.eqb (res_uri r0) uri); [reflexivity | exact IH].
Qed.


(** X2. A resource registered under a uri no earlier resource has is read
    back under that uri with its mime type and content; the registration
    changes the answer for no other uri and for no tool; and a uri that no
    resource has is answered with the response "Resource not found". *)
Theorem registered_resource_is_read_back (self : SimpleMCPServer)
  (uri name mime_type content : string) :
  let after := register_resource self uri name mime_type content in
  ((forall r, In r (resources self) -> res_uri r <> uri) ->
   read_resource after uri
   = VDict [("contents",
             VList [VDict [("uri", VStr uri); ("mimeType", VStr mime_type);
                           ("text", VStr content)]])])
  /\ (forall other, other <> uri -> read_resource after other = read_resource self other)
  /\ (forall tool_name arguments,
         call_tool after tool_name arguments = call_tool self tool_name arguments)
  /\ (forall missing,
         (forall r, In r (resources self) -> res_uri r <> missing) ->
         read_resource self missing = error_response "Resource not found").
Proof.
  cbv zeta. split; [|split; [|split]].
  - intros Hfresh. unfold read_resource. simpl resources.
    rewrite (read_resource_from_skips (resources self) _ uri Hfresh). simpl.
    now rewrite String.eqb_refl.
  - intros other Hother. unfold read_resource. simpl resources.
    apply read_resource_from_other. simpl. congruence.
  - reflexivity.
  - intros missing Hfresh. unfold read_resource.
    rewrite <- (app_nil_r (resources self)).
    now rewrite (read_resource_from_skips (resources self) [] missing Hfresh).
Qed.

(** X3. Whatever the server, the name and the arguments, [call_tool] either
    returns a response with the single key content, or returns a response with
    the single key error, or lets through an exception that is not an
    Exception; it never raises an Exception, and the two kinds of response
    cannot be mistaken for each other. *)
Theorem call_tool_answers_content_or_error (self : SimpleMCPServer)
  (tool_name : string) (arguments : kwargs) :
  match call_tool self tool_name arguments with
  | Return response =>
      (exists text, response = content_response text
                    /\ schema_field response "error" = None)
      \/ (exists msg, response = error_response msg
                      /\ schema_field response "content" = None)
  | Raise e => is_Exception e = false
  end.
Proof.
  unfold call_tool. induction (tools self) as [|t ts IH]; simpl.
  - right. now exists "Tool not found".
  - destruct (String.eqb (MCP.tool_name t) tool_name); [|exact IH].
    unfold invoke. destruct (tool_handler t arguments) as [result|e].
    + left. now exists (py_str result).
    + destruct (is_Exception e) eqn:He; [|exact He].
      right. now exists (exn_str e).
Qed.

Lemma register_all_lists (rs : list registration) (self : SimpleMCPServer) :
  list_tools (register_all self rs)
  = VDict [("tools",
            VList (map (fun t => VDict [("name", VStr (MCP.tool_name t));
                                         ("description", VStr (tool_description t));
                                         ("inputSchema", tool_inputSchema t)])
                       (tools self) ++ tool_summaries rs))]
  /\ list_resources (register_all self rs)
     = VDict [("resources",
               VList (map (fun r => VDict [("uri", VStr (res_uri r));
                                            ("name", VStr (res_name r));
                                            ("mimeType", VStr (res_mimeType r));
                                            ("description", VStr (res_description r))])
                          (resources self) ++ resource_summaries rs))]
  /\ MCP.name (register_all self rs) = MCP.name self
  /\ version (register_all self rs) = version self.
Proof.
  revert self. induction rs as [|r rs IH]; intros self.
  - unfold register_all. simpl. now rewrite !app_nil_r.
  - destruct (IH (register self r)) as (Ht & Hr & Hn & Hv).
    unfold register_all in *. simpl fold_left. rewrite Ht, Hr, Hn, Hv.
    destruct r; simpl; rewrite ?map_app, <- ?app_assoc; repeat split.
Qed.

(** X4. After any sequence of registrations on a fresh server, [list_tools]
    shows the registered tools in registration order, each with its name, its
    description and the schema without properties, and [list_resources] shows
    the registered resources in registration order, each with its uri, name,
    mime type and description and without its content; the server's name is
    the one it was created with and its version is 1.0.0. *)
Theorem listings_follow_registrations (server_name : string) (rs : list registration) :
  let server := register_all (init server_name) rs in
  list_tools server = VDict [("tools", VList (tool_summaries rs))]
  /\ list_resources server = VDict [("resources", VList (resource_summaries rs))]
  /\ MCP.name server = server_name
  /\ version server = "1.0.0".
Proof.
  cbv zeta. destruct (register_all_lists rs (init server_name)) as (Ht & Hr & Hn & Hv).
  rewrite Ht, Hr, Hn, Hv. repeat split.
Qed.

End RegistryFrame.


Lemma registered_resource_is_read_back_witness :
  MCP.read_resource
    (MCP.register_resource (MCP.main_server "2024-05-01 12:00:00") "resource://notes"
       "Notes" "text/plain" "remember the milk")
    "resource://notes"
  = VDict [("contents",
            VList [VDict [("uri", VStr "resource://notes"); ("mimeType", VStr "text/plain");
                          ("text", VStr "remember the milk")]])]
  /\ MCP.read_resource (MCP.main_server "2024-05-01 12:00:00") "resource://notes"
     = MCP.error_response "Resource not found".
Proof.
  destruct (registered_resource_is_read_back (MCP.main_server "2024-05-01 12:00:00")
              "resource://notes" "Notes" "text/plain" "remember the milk")
    as (Hnew & _ & _ & Hmissing).
  split.
  - apply Hnew. intros r [<-|[<-|[]]]; discriminate.
  - apply Hmissing. intros r [<-|[<-|[]]]; discriminate.
Defined.

(** X5. In the MCP calculator a division by zero is not an error: when b
    converts to zero (0, 0.0, -0.0, False, "0") and a converts to a float,
    [call_tool] returns a content response whose text ends in "Error: Division
    by zero", not an error response. *)
Theorem division_by_zero_is_a_content_response (clock : string) (a b : value)
  (x y : spec_float) :
  py_float a = Return x ->
  py_float b = Return y ->
  PyFloat.is_zero y = true ->
  MCP.call_tool (MCP.main_server clock) "calculator"
    (calculator_arguments (VStr "divide") a b)
  = Return (MCP.content_response
              ("divide(" ++ py_str a ++ ", " ++ py_str b ++ ") = Error: Division by zero")).
Proof.
  intros Ha Hb Hzero. rewrite calculator_call. unfold MCP.invoke, MCP.tool_handler.
  cbn [fun_body MCP.calculator_tool].
  change (bound_value (fun_params MCP.calculator_tool)
            (calculator_arguments (VStr "divide") a b) "operation") with (VStr "divide").
  change (bound_value (fun_params MCP.calculator_tool)
            (calculator_arguments (VStr "divide") a b) "a") with a.
  change (bound_value (fun_params MCP.calculator_tool)
            (calculator_arguments (VStr "divide") a b) "b") with b.
  change (MCP.find_operation (VStr "divide"))
    with (Return (Some (fun x y : spec_float =>
                          if negb (PyFloat.is_zero y) then VFloat (PyFloat.div x y)
                          else VStr "Error: Division by zero"))).
  cbn [bind]. rewrite Ha. cbn [bind]. rewrite Hb. cbn [bind]. rewrite Hzero. reflexivity.
Qed.

Lemma division_by_zero_is_a_content_response_witness :
  MCP.call_tool (MCP.main_server "2024-05-01 12:00:00") "calculator"
    (calculator_arguments (VStr "divide") (VInt 5) (VStr "-0.0"))
  = Return (MCP.content_response "divide(5, -0.0) = Error: Division by zero").
Proof.
  apply (division_by_zero_is_a_content_response "2024-05-01 12:00:00" (VInt 5)
           (VStr "-0.0") (PyFloat.of_Z 5) (S754_zero true));
    vm_compute; reflexivity.
Defined.

(** X6. The get_time tool takes no argument: called with the empty dict it
    answers with the current time, and called with any other dict it answers
    with the error response that names the first key of the dict as an
    unexpected keyword argument. *)
Theorem get_time_takes_no_argument (clock : string) :
  MCP.call_tool (MCP.main_server clock) "get_time" []
  = Return (MCP.content_response ("Current time: " ++ clock))
  /\ (forall key v rest,
         MCP.call_tool (MCP.main_server clock) "get_time" ((key, v) :: rest)
         = Return (MCP.error_response
                     ("get_time_tool() got an unexpected keyword argument '" ++ key ++ "'"))).
Proof. split; [reflexivity | intros key v rest; reflexivity]. Qed.

(** * Further properties of the agent *)

Section AgentTrace.

Import Agent.

Variable h : host.

Lemma tool_prints_are_quiet (evs : list event) :
  forallb is_tool_print evs = true ->
  sent_transcripts evs = [] /\ existsb is_maximum_report evs = false.
Proof.
  induction evs as [|ev evs IH]; [now split|]. simpl. intros H.
  apply andb_prop in H. destruct H as [Hev Hevs]. destruct (IH Hevs) as [Hs Hm].
  destruct ev; try discriminate; simpl; now rewrite Hs, Hm.
Qed.

Lemma sent_transcripts_app (out evs : list event) :
  sent_transcripts (out ++ evs) = (sent_transcripts out ++ sent_transcripts evs)%list.
Proof. unfold sent_transcripts. apply flat_map_app. Qed.

(* one pass: the messages only grow, the model is called once, with the
   messages as they were, and nothing says that the maximum is reached *)
Lemma loop_body_trace (st : state) :
  let st' := fst (loop_body h st) in
  (exists tail, messages st' = (messages st ++ tail)%list)
  /\ sent_transcripts (output st')
     = (sent_transcripts (output st) ++ [messages st])%list
  /\ existsb is_maximum_report (output st')
     = existsb is_maximum_report (output st).
Proof.
  unfold loop_body. cbn [messages iteration output emit].
  destruct (chat_completions_create h (messages st)) as [m|e].
  - destruct (tool_calls m) as [|tc rest] eqn:Hcalls.
    + simpl. split; [now exists [response_message m]|].
      rewrite !sent_transcripts_app, !existsb_app. simpl.
      now rewrite !app_nil_r, !orb_false_r.
    + match goal with
      | |- context [dispatch_tool_calls h ?cs ?s] =>
          pose proof (dispatch_tool_calls_spec h cs s) as Hd;
          destruct (dispatch_tool_calls h cs s) as [st1 escaped]
      end.
      cbv zeta in Hd. simpl fst in Hd. simpl snd in Hd.
      destruct Hd as (Hm & _ & [evs [Ho Hevs]] & _). simpl in Hm, Ho.
      destruct (tool_prints_are_quiet evs Hevs) as [Hsent Hmax].
      assert (Hst1 :
        (exists tail, messages st1 = (messages st ++ tail)%list)
        /\ sent_transcripts (output st1)
           = (sent_transcripts (output st) ++ [messages st])%list
        /\ existsb is_maximum_report (output st1)
           = existsb is_maximum_report (output st)).
      { split; [|split].
        - exists (response_message m :: executed_prefix h (tc :: rest)).
          rewrite Hm, <- app_assoc. reflexivity.
        - rewrite Ho, !sent_transcripts_app, Hsent. simpl. now rewrite !app_nil_r.
        - rewrite Ho, !existsb_app, Hmax. simpl. now rewrite !orb_false_r. }
      destruct escaped as [e|]; [|exact Hst1].
      unfold except_Exception. destruct (is_Exception e); [|exact Hst1].
      simpl. destruct Hst1 as (Hmsg & Hs & Hx). split; [exact Hmsg|].
      rewrite sent_transcripts_app, existsb_app, Hs, Hx. simpl.
      now rewrite app_nil_r, orb_false_r.
  - unfold except_Exception. destruct (is_Exception e); simpl;
      (split; [exists []; now rewrite app_nil_r|]);
      rewrite !sent_transcripts_app, !existsb_app; simpl;
      now rewrite ?app_nil_r, ?orb_false_r.
Qed.

Lemma while_loop_trace (max_iterations : Z) (fuel : nat) (st st' : state)
  (escaped : option pyexn) :
  while_loop fuel h max_iterations st = Some (st', escaped) ->
  (exists tail, messages st' = (messages st ++ tail)%list)
  /\ existsb is_maximum_report (output st') = existsb is_maximum_report (output st)
  /\ (forall sent, In sent (sent_transcripts (output st')) ->
        In sent (sent_transcripts (output st))
        \/ exists before after,
             sent = (messages st ++ before)%list /\ messages st' = (sent ++ after)%list).
Proof.
  revert st. induction fuel as [|fuel IH]; intros st; simpl.
  - destruct (iteration st <? max_iterations); [discriminate|].
    intros [= <- <-]. split; [exists []; now rewrite app_nil_r|]. split; [reflexivity|].
    intros sent Hin. now left.
  - destruct (iteration st <? max_iterations).
    + destruct (loop_body_trace st) as ([tail1 Hm1] & Hs1 & Hx1).
      destruct (loop_body h st) as [st1 [| |e]]; simpl in Hm1, Hs1, Hx1.
      * intros Hrun. destruct (IH st1 Hrun) as ([tail Hm] & Hx & Hsent).
        split; [exists (tail1 ++ tail)%list; now rewrite Hm, Hm1, <- app_assoc|].
        split; [now rewrite Hx|].
        intros sent Hin. destruct (Hsent sent Hin) as [Hold|(before & after & Hb & Ha)].
        -- rewrite Hs1 in Hold. apply in_app_or in Hold.
           destruct Hold as [Hold|[<-|[]]]; [now left|]. right.
           exists [], (tail1 ++ tail)%list. rewrite app_nil_r. split; [reflexivity|].
           now rewrite Hm, Hm1, <- app_assoc.
        -- right. exists (tail1 ++ before)%list, after. split; [|exact Ha].
           now rewrite Hb, Hm1, <- app_assoc.
      * intros [= <- <-]. split; [now exists tail1|]. split; [exact Hx1|].
        intros sent Hin. rewrite Hs1 in Hin. apply in_app_or in Hin.
        destruct Hin as [Hold|[<-|[]]]; [now left|]. right.
        exists [], tail1. now rewrite app_nil_r.
      * intros [= <- <-]. split; [now exists tail1|]. split; [exact Hx1|].
        intros sent Hin. rewrite Hs1 in Hin. apply in_app_or in Hin.
        destruct Hin as [Hold|[<-|[]]]; [now left|]. right.
        exists [], tail1. now rewrite app_nil_r.
    + intros [= <- <-]. split; [exists []; now rewrite app_nil_r|]. split; [reflexivity|].
      intros sent Hin. now left.
Qed.

(** X7. Without a usable API key (none, the empty one or the placeholder of
    the sample file) [run_agent] stops before it builds any message: it calls
    the model not at all, whatever the ceiling, warns, prints that it skips,
    and reports neither an answer nor an error nor the maximum. *)
Theorem run_without_key_calls_nothing (user_query : string) (max_iterations : Z) :
  OPENAI_API_KEY h = None
  \/ OPENAI_API_KEY h = Some EmptyString
  \/ OPENAI_API_KEY h = Some "your_openai_api_key_here" ->
  run_agent h user_query max_iterations
  = Some {| final := {| messages := []; iteration := 0;
                        output := [PrintTask user_query; PrintWarningNoKey;
                                   PrintSkipping] |};
            uncaught := None |}.
Proof.
  intros Hkey. unfold run_agent, check_api_key.
  destruct Hkey as [ -> | [ -> | -> ] ]; reflexivity.
Qed.

(** X8. A failure of the model API ends the loop at once, without a retry:
    the messages stay as they were sent, and when the exception is an
    Exception it is printed and the loop ends normally, while any other
    exception leaves [run_agent] unprinted. *)
Theorem api_failure_ends_loop (st : state) (e : pyexn) (fuel : nat)
  (max_iterations : Z) :
  iteration st < max_iterations ->
  chat_completions_create h (messages st) = Raise e ->
  while_loop (S fuel) h max_iterations st
  = Some ({| messages := messages st;
             iteration := iteration st + 1;
             output := (output st
                          ++ [PrintIteration (iteration st + 1); CallModel (messages st)]
                          ++ (if is_Exception e then [PrintError e] else []))%list |},
          if is_Exception e then None else Some e).
Proof.
  intros Hlt Hfail. simpl. destruct (Z.ltb_spec (iteration st) max_iterations); [|lia].
  unfold loop_body. cbn [messages iteration output emit]. rewrite Hfail.
  unfold except_Exception. destruct (is_Exception e); unfold emit;
    cbn [messages iteration output]; rewrite <- ?app_assoc; reflexivity.
Qed.

(** X9. In a run that passed the key check the counter always equals the
    number of model calls made, and the message that the maximum is reached is
    printed exactly when no exception escaped and as many calls as the ceiling
    were made, whether the last of them brought an answer, an error or more
    tool calls. *)
Theorem maximum_is_reported_by_count (user_query : string) (max_iterations : Z) :
  snd (check_api_key h) = true ->
  exists r,
    run_agent h user_query max_iterations = Some r
    /\ iteration (final r) = Z.of_nat (model_calls r)
    /\ reports_maximum r
       = match uncaught r with
         | None => max_iterations <=? Z.of_nat (model_calls r)
         | Some _ => false
         end.
Proof.
  intros Hkey. unfold run_agent. rewrite (check_api_key_ok h Hkey). cbn [negb emit output].
  set (st0 := {| messages := [role_message "system" system_prompt;
                              role_message "user" user_query];
                 iteration := 0;
                 output := ([PrintTask user_query] ++ [])%list |}).
  destruct (while_loop_runs h max_iterations (Z.to_nat max_iterations) st0)
    as (st' & escaped & Hrun & Hcalls & _ & _); [simpl; lia|].
  rewrite Hrun. destruct (while_loop_trace _ _ _ _ _ Hrun) as (_ & Hmax & _).
  simpl in Hcalls, Hmax.
  assert (Hcount : iteration st' = Z.of_nat (calls_in (output st')))
    by (unfold calls_in in *; simpl in Hcalls; lia).
  destruct escaped as [e|]; eexists; (split; [reflexivity|]);
    unfold model_calls, reports_maximum; cbn [final uncaught].
  - split; [exact Hcount|]. exact Hmax.
  - destruct (max_iterations <=? iteration st') eqn:Hle.
    + cbn [emit output iteration].
      fold (calls_in (output st' ++ [PrintReachedMaximum max_iterations])).
      assert (Hsame : calls_in (output st' ++ [PrintReachedMaximum max_iterations])
                      = calls_in (output st'))
        by (rewrite calls_in_app; unfold calls_in; simpl; lia).
      rewrite Hsame, <- Hcount, Hle. split; [reflexivity|].
      change (existsb is_maximum_report
                (output st' ++ [PrintReachedMaximum max_iterations]) = true).
      rewrite existsb_app. simpl. now rewrite orb_true_r.
    + fold (calls_in (output st')). rewrite <- Hcount, Hle.
      split; [reflexivity | exact Hmax].
Qed.

(** X10. The transcript only grows: in a run that passed the key check the
    final messages begin with the system and user messages, and every call of
    the model API was sent a list that begins with those two messages and is
    itself a beginning of the final messages; no message, once sent, is later
    changed or removed. *)
Theorem model_is_sent_beginnings_of_the_transcript (user_query : string)
  (max_iterations : Z) :
  snd (check_api_key h) = true ->
  exists r,
    run_agent h user_query max_iterations = Some r
    /\ (exists tail, messages (final r) = (opening_messages user_query ++ tail)%list)
    /\ (forall sent, In sent (sent_transcripts (output (final r))) ->
          exists before after,
            sent = (opening_messages user_query ++ before)%list
            /\ messages (final r) = (sent ++ after)%list).
Proof.
  intros Hkey. unfold run_agent. rewrite (check_api_key_ok h Hkey). cbn [negb emit output].
  set (st0 := {| messages := [role_message "system" system_prompt;
                              role_message "user" user_query];
                 iteration := 0;
                 output := ([PrintTask user_query] ++ [])%list |}).
  destruct (while_loop_runs h max_iterations (Z.to_nat max_iterations) st0)
    as (st' & escaped & Hrun & _); [simpl; lia|].
  rewrite Hrun. destruct (while_loop_trace _ _ _ _ _ Hrun) as (Htail & _ & Hsent).
  assert (Hold : forall sent, In sent (sent_transcripts (output st')) ->
            exists before after,
              sent = (opening_messages user_query ++ before)%list
              /\ messages st' = (sent ++ after)%list).
  { intros sent Hin. destruct (Hsent sent Hin) as [[]|Hnew]. exact Hnew. }
  destruct escaped as [e|]; eexists; (split; [reflexivity|]); cbn [final].
  - split; [exact Htail | exact Hold].
  - destruct (max_iterations <=? iteration st'); [|split; [exact Htail | exact Hold]].
    cbn [emit messages output]. split; [exact Htail|].
    intros sent Hin. rewrite sent_transcripts_app in Hin. simpl in Hin.
    rewrite app_nil_r in Hin. now apply Hold.
Qed.

End AgentTrace.

Lemma run_without_key_calls_nothing_witness :
  option_map Agent.model_calls (Agent.run_agent keyless_host "Anyone there?" 5) = Some 0%nat.
Proof.
  rewrite (run_without_key_calls_nothing keyless_host "Anyone there?" 5 (or_introl eq_refl)).
  reflexivity.
Defined.

Lemma api_failure_ends_loop_witness :
  option_map (fun p => (Agent.messages (fst p), calls_in (Agent.output (fst p)), snd p))
    (Agent.while_loop 5
       (failing_api_host {| exn_type := OtherException "APIConnectionError";
                            exn_str := "Connection error." |})
       5 (first_turn "Hello"))
  = Some (opening_messages "Hello", 1%nat, None).
Proof.
  rewrite (api_failure_ends_loop
             (failing_api_host {| exn_type := OtherException "APIConnectionError";
                                  exn_str := "Connection error." |})
             (first_turn "Hello")
             {| exn_type := OtherException "APIConnectionError";
                exn_str := "Connection error." |} 4 5);
    [reflexivity | reflexivity | reflexivity].
Defined.

Lemma maximum_is_reported_by_count_witness :
  exists r,
    Agent.run_agent (late_answer_host 1 "42") "What is 6 times 7?" 2 = Some r
    /\ Agent.model_calls r = 2%nat
    /\ Agent.reports_answer r = true
    /\ Agent.reports_maximum r = true.
Proof.
  destruct (maximum_is_reported_by_count (late_answer_host 1 "42")
              "What is 6 times 7?" 2 eq_refl) as (r & Hrun & _ & Hmax).
  exists r. split; [exact Hrun|].
  vm_compute in Hrun. injection Hrun as <-.
  split; [reflexivity|]. split; [reflexivity|]. rewrite Hmax. reflexivity.
Defined.

Lemma model_is_sent_beginnings_of_the_transcript_witness :
  exists r,
    Agent.run_agent three_calls_host "Go" 2 = Some r
    /\ List.length (sent_transcripts (Agent.output (Agent.final r))) = 2%nat
    /\ Forall (fun sent => firstn 2 sent = opening_messages "Go")
         (sent_transcripts (Agent.output (Agent.final r))).
Proof.
  destruct (model_is_sent_beginnings_of_the_transcript three_calls_host "Go" 2 eq_refl)
    as (r & Hrun & _ & Hsent).
  exists r. split; [exact Hrun|]. split.
  - vm_compute in Hrun. injection Hrun as <-. reflexivity.
  - apply Forall_forall. intros sent Hin.
    destruct (Hsent sent Hin) as (before & after & -> & _). reflexivity.
Defined.

(** ** The agent's tools *)

Lemma agent_calculator_call (h : Agent.host) (operation a b : value) :
  call_kw (Agent.calculator h) (calculator_arguments operation a b)
  = fun_body (Agent.calculator h)
      (fun x => if String.eqb x "operation" then operation
                else if String.eqb x "a" then a
                else if String.eqb x "b" then b else VNone).
Proof. reflexivity. Qed.




(** X13. Because the power entry is computed for every operation, a call of
    the agent's calculator with int operands and a negative b ends as the
    float power of a and b ends: when that power raises, the call raises the
    same exception, also when the operation asked for is add. *)
Theorem calculator_fails_with_its_power_entry (h : Agent.host) (operation : value)
  (a b : Z) (fa fb : spec_float) (q : value) (e : pyexn) :
  b < 0 ->
  float_of_int a = Return fa ->
  float_of_int b = Return fb ->
  py_truediv (VInt a) (VInt b) = Return q ->
  Agent.float_pow h fa fb = Raise e ->
  call_kw (Agent.calculator h) (calculator_arguments operation (VInt a) (VInt b))
  = Raise e.
Proof.
  intros Hneg Ha Hb Hq Hpow. rewrite agent_calculator_call.
  cbn [fun_body Agent.calculator String.eqb Ascii.eqb Bool.eqb].
  cbn [py_add py_sub py_mul as_number bind]. unfold py_ne_zero. cbn [as_number].
  destruct (Z.eqb_spec b 0) as [Hz|_]; [lia|]. cbn [negb]. rewrite Hq. cbn [bind].
  unfold py_pow. cbn [as_number].
  destruct (Z.leb_spec 0 b) as [Hle|_]; [lia|].
  rewrite Ha. cbn [bind]. rewrite Hb. cbn [bind]. rewrite Hpow. reflexivity.
Qed.

Lemma calculator_fails_with_its_power_entry_witness :
  call_kw (Agent.calculator zero_base_host)
    (calculator_arguments (VStr "add") (VInt 0) (VInt (-1)))
  = raise ZeroDivisionError "0.0 cannot be raised to a negative power".
Proof.
  apply (calculator_fails_with_its_power_entry zero_base_host (VStr "add") 0 (-1)
           (S754_zero false) (PyFloat.of_Z (-1)) (VFloat (S754_zero true)));
    [lia | reflexivity | reflexivity | reflexivity | reflexivity].
Defined.

(** X14. The agent's calculator cannot be called without b: every call
    whose arguments have no b raises TypeError before the body runs, although
    the schema advertised to the model lists only operation and a as
    required. *)
Theorem calculator_requires_b (h : Agent.host) (function_args : kwargs) :
  dict_has function_args "b" = false ->
  (exists msg, call_kw (Agent.calculator h) function_args = raise TypeError msg)
  /\ required_names (parameters_of (List.hd VNone Agent.tools)) = ["operation"; "a"].
Proof.
  intros Hb. split; [|reflexivity]. apply call_kw_missing.
  unfold missing_params. simpl. rewrite Hb.
  destruct (dict_has function_args "operation"), (dict_has function_args "a");
    simpl; discriminate.
Qed.

Lemma calculator_requires_b_witness :
  spec_validate (parameters_of (List.hd VNone Agent.tools))
    [("operation", VStr "sqrt"); ("a", VInt 16)] = true
  /\ call_kw (Agent.calculator searching_host) [("operation", VStr "sqrt"); ("a", VInt 16)]
     = raise TypeError "calculator() missing 1 required positional argument: 'b'".
Proof.
  split; [reflexivity|].
  destruct (calculator_requires_b searching_host
              [("operation", VStr "sqrt"); ("a", VInt 16)] eq_refl) as [[msg Hmsg] _].
  rewrite Hmsg. vm_compute in Hmsg. injection Hmsg as <-. reflexivity.
Defined.









(** X17. A registered tool can only be called with arguments that decode to
    a JSON object: when they decode to anything else (an array, a number, a
    string, null), [execute_tool_call] prints the call and raises TypeError
    without running the tool, while for a name that is not registered the same
    arguments are answered with the unknown-function text. *)
Theorem tool_arguments_must_be_an_object (h : Agent.host) (tc : Agent.tool_call)
  (function_args : value) :
  Agent.fn_arguments (Agent.function tc) = Agent.JsonOf function_args ->
  Agent.first_opaque function_args = None ->
  (forall d, function_args <> VDict d) ->
  (forall f,
      assoc (Agent.fn_name (Agent.function tc)) (Agent.TOOL_FUNCTIONS h) = Some f ->
      Agent.execute_tool_call h tc
      = ([Agent.PrintCalling (Agent.fn_name (Agent.function tc)) function_args],
         raise TypeError ("__main__." ++ fun_name f
                            ++ "() argument after ** must be a mapping, not "
                            ++ type_name function_args)))
  /\ (assoc (Agent.fn_name (Agent.function tc)) (Agent.TOOL_FUNCTIONS h) = None ->
      snd (Agent.execute_tool_call h tc)
      = Return (Agent.JsonOf
                  (VDict [("error",
                           VStr ("Unknown function: "
                                   ++ Agent.fn_name (Agent.function tc)))]))).
Proof.
  intros Harguments Hjson Hnot.
  split; [intros f Hname | intros Hname]; unfold Agent.execute_tool_call;
    rewrite Harguments; cbn [Agent.json_loads]; unfold Agent.json_dumps at 1;
    rewrite Hjson, Hname.
  - destruct function_args; try reflexivity.
    exfalso. now apply (Hnot d).
  - reflexivity.
Qed.

Lemma tool_arguments_must_be_an_object_witness :
  snd (Agent.execute_tool_call searching_host
         {| Agent.id := "call_1";
            Agent.function :=
              {| Agent.fn_name := "get_weather";
                 Agent.fn_arguments := Agent.JsonOf (VList [VStr "Tokyo"]) |} |})
  = raise TypeError "__main__.get_weather() argument after ** must be a mapping, not list".
Proof.
  rewrite (proj1 (tool_arguments_must_be_an_object searching_host
                    {| Agent.id := "call_1";
                       Agent.function :=
                         {| Agent.fn_name := "get_weather";
                            Agent.fn_arguments := Agent.JsonOf (VList [VStr "Tokyo"]) |} |}
                    (VList [VStr "Tokyo"]) eq_refl eq_refl
                    (fun d H => ltac:(discriminate H)))
             (Agent.get_weather searching_host) eq_refl).
  reflexivity.
Defined.

(** X18. get_weather's unit is optional and defaults to celsius: a call
    with the location alone gives what the call with unit celsius gives, for
    every location, str or not; and any keyword other than location and unit
    is refused with TypeError before the body runs. *)
Theorem get_weather_unit_defaults_to_celsius (h : Agent.host) (location : value) :
  call_kw (Agent.get_weather h) [("location", location)]
  = call_kw (Agent.get_weather h) [("location", location); ("unit", VStr "celsius")]
  /\ (forall key v,
         key <> "location" -> key <> "unit" ->
         call_kw (Agent.get_weather h) [("location", location); (key, v)]
         = raise TypeError ("get_weather() got an unexpected keyword argument '"
                              ++ key ++ "'")).
Proof.
  split; [reflexivity|]. intros key v Hlocation Hunit.
  assert (Hkey : is_param (fun_params (Agent.get_weather h)) key = false).
  { unfold is_param. cbn [existsb fun_params Agent.get_weather fst].
    destruct (String.eqb_spec "location" key) as [Heq|_]; [congruence|].
    destruct (String.eqb_spec "unit" key) as [Heq|_]; [congruence|].
    reflexivity. }
  unfold call_kw. cbn [find fst].
  change (is_param (fun_params (Agent.get_weather h)) "location") with true.
  cbn [negb]. rewrite Hkey. reflexivity.
Qed.

Lemma get_weather_unit_defaults_to_celsius_witness :
  call_kw (Agent.get_weather searching_host) [("location", VStr "Paris"); ("units", VStr "F")]
  = raise TypeError "get_weather() got an unexpected keyword argument 'units'".
Proof.
  apply (proj2 (get_weather_unit_defaults_to_celsius searching_host (VStr "Paris")));
    discriminate.
Defined.
